(** * nenupy.undysputed.dynspec: a shallow embedding and its properties

    The development follows [nenupy/undysputed/dynspec.py]: the lane
    reader [_Lane] (header-derived resolutions, coherency assembly,
    Stokes extraction, axis reconstruction) and the observation
    aggregator [Dynspec] (validated setters, lane selection, and the
    correction stages run by [get]).

    Conventions of the embedding.
    - numpy/dask arrays are a shape together with an indexing function;
      every numpy step (reshape, slice, roll, stack, item assignment) is
      written out as the index identity it performs (row-major order).
      Deferred (dask) evaluation is not observable and is dropped.
    - Floating-point samples are exact rationals extended with a
      not-a-number value, [fl]; axis values, [dt], [df] are rationals.
      Units are dropped: seconds and Hertz throughout.
    - Python integers are [Z]; array sizes and indices are [nat].
    - A raised exception is the [Raise] result; log records are kept only
      where a statement speaks of them. *)

From Stdlib Require Import PrimFloat.
From Stdlib Require Import ZArith QArith Qround Qabs Qminmax Lia Lqa Bool Ascii String.
From stdpp Require Import base option list sorting strings gmap pretty.

(** ** Exceptions *)

Inductive exn :=
| ValueError
| FileNotFoundError
| NotImplementedError
| ZeroDivisionError
| UnboundLocalError
| TypeError
| IndexError.

Inductive result (A : Type) :=
| Ok (a : A)
| Raise (e : exn).
Arguments Ok {A} a.
Arguments Raise {A} e.

#[global] Instance result_ret : MRet result := fun A a => Ok a.
#[global] Instance result_bind : MBind result := fun A B f m =>
  match m with
  | Ok a => f a
  | Raise e => Raise e
  end.

Definition is_ok {A} (r : result A) : bool :=
  match r with Ok _ => true | Raise _ => false end.

(** ** Samples *)

(** A floating-point sample: a finite value or not-a-number. *)
Inductive fl :=
| NaN
| Fin (q : Q).

Definition is_nan (x : fl) : bool :=
  match x with NaN => true | Fin _ => false end.

Definition fl_lift2 (op : Q -> Q -> Q) (x y : fl) : fl :=
  match x, y with
  | Fin a, Fin b => Fin (op a b)
  | _, _ => NaN
  end.

Definition fadd := fl_lift2 Qplus.
Definition fsub := fl_lift2 Qminus.
Definition fmul := fl_lift2 Qmult.

(** Equality of samples up to the representation of the rational. *)
Definition fl_equiv (x y : fl) : Prop :=
  match x, y with
  | NaN, NaN => True
  | Fin a, Fin b => (a == b)%Q
  | _, _ => False
  end.

(** Complex samples, with numpy's componentwise formulas. *)
Record complex := Cplx { re : fl; im : fl }.

Definition of_real (x : fl) : complex := Cplx x (Fin 0).
Definition imag_unit : complex := Cplx (Fin 0) (Fin 1).

Definition cadd (a b : complex) : complex :=
  Cplx (fadd (re a) (re b)) (fadd (im a) (im b)).
Definition csub (a b : complex) : complex :=
  Cplx (fsub (re a) (re b)) (fsub (im a) (im b)).
Definition cmul (a b : complex) : complex :=
  Cplx (fsub (fmul (re a) (re b)) (fmul (im a) (im b)))
       (fadd (fmul (re a) (im b)) (fmul (im a) (re b))).

(** ** Python and numpy helpers *)

(** Normalisation of one slice bound against an axis of length [len]:
    a negative bound counts from the end, and the result is clamped to
    [0 .. len]. *)
Definition slice_bound (len : nat) (i : Z) : Z :=
  if (i <? 0)%Z then Z.max 0 (i + Z.of_nat len) else Z.min i (Z.of_nat len).

(** [a[start:stop]] on an axis of length [len]: the offset of the first
    selected index and the number of selected indices. *)
Definition py_slice (start stop : option Z) (len : nat) : nat * nat :=
  let lo := match start with Some s => slice_bound len s | None => 0%Z end in
  let hi := match stop with Some e => slice_bound len e | None => Z.of_nat len end in
  (Z.to_nat lo, Z.to_nat (hi - lo)).

(** [np.roll(x, shift, 0)] on an axis of length [len]: the sample found
    at index [j] of the result comes from index [(j - shift) mod len]. *)
Definition roll_src (len : nat) (shift : Z) (j : nat) : nat :=
  Z.to_nat ((Z.of_nat j - shift) mod Z.of_nat len).

(** [np.round]: to the nearest integer, ties to the even one. *)
Definition round_half_even (q : Q) : Z :=
  let f := Qfloor q in
  match Qcompare (q - inject_Z f)%Q (1 # 2)%Q with
  | Lt => f
  | Gt => (f + 1)%Z
  | Eq => if Z.even f then f else (f + 1)%Z
  end.

Definition Qabs_diff (a b : Q) : Q := Qabs (a - b)%Q.

(** [np.argmin] of the distances to [x]: the first index of a minimal
    distance; an empty sequence raises. *)
Fixpoint argmin_from (best : Q) (besti : nat) (i : nat) (l : list Q) : nat :=
  match l with
  | [] => besti
  | d :: l' =>
      if Qle_bool best d then argmin_from best besti (S i) l'
      else argmin_from d i (S i) l'
  end.

Definition argmin (l : list Q) : result nat :=
  match l with
  | [] => Raise ValueError
  | d :: l' => Ok (argmin_from d 0 1 l')
  end.

Definition nearest_index (axis : list Q) (x : Q) : result nat :=
  argmin (map (fun a => Qabs_diff a x) axis).

(** Tabulation of the first [n] values of an indexing function. *)
Definition tabulate {A} (n : nat) (f : nat -> A) : list A := map f (seq 0 n).

(** ** Arrays *)

(** A real array of shape (time, frequency, polarization). *)
Record Array3 := MkArray3 {
  ntimes : nat;
  nfreqs : nat;
  npols : nat;
  cell : nat -> nat -> nat -> fl
}.

Definition shape3 (a : Array3) : nat * nat * nat := (ntimes a, nfreqs a, npols a).

Definition to_lists (a : Array3) : list (list (list fl)) :=
  tabulate (ntimes a) (fun t =>
    tabulate (nfreqs a) (fun f =>
      tabulate (npols a) (fun p => cell a t f p))).

(** A complex array of shape (time, frequency, 2, 2). *)
Record EJones := MkEJones {
  e_ntimes : nat;
  e_nfreqs : nat;
  jones : nat -> nat -> nat -> nat -> complex
}.

(** ** _Lane: coherency assembly and Stokes extraction *)

(** [da.stack([a, b], axis=-1)]: a new trailing axis of length two. *)
Definition stack2 {J A} (a b : J -> A) : J -> nat -> A :=
  fun j k => match k with O => a j | S _ => b j end.

(** [_Lane._to_ejones]. [fft0[..., :] = [XX, YY]] and
    [fft1[..., :] = [Re(X*Y), Im(X*Y)]]; the leading axes are kept as one
    index [J]. The two rows are stacked along a new last axis, so the
    result is indexed [(..., position in the row, row)]. *)
Definition _to_ejones {J} (fft0 fft1 : J -> nat -> fl) : J -> nat -> nat -> complex :=
  let row1 : J -> nat -> complex :=
    stack2
      (fun j => of_real (fft0 j 0))
      (fun j => csub (of_real (fft1 j 0)) (cmul imag_unit (of_real (fft1 j 1)))) in
  let row2 : J -> nat -> complex :=
    stack2
      (fun j => cadd (of_real (fft1 j 0)) (cmul imag_unit (of_real (fft1 j 1))))
      (fun j => of_real (fft0 j 1)) in
  fun j a b =>
    stack2 (fun ja : J * nat => row1 ja.1 ja.2) (fun ja => row2 ja.1 ja.2) (j, a) b.

(** [str.upper] on one ASCII character. *)
Definition ascii_upper (c : ascii) : ascii :=
  let n := nat_of_ascii c in
  if (97 <=? n) && (n <=? 122) then ascii_of_nat (n - 32) else c.

(** The body of the [if]/[elif] chain of [_Lane.get_stokes] for one
    requested letter: a (time, frequency) plane. *)
Definition stokes_plane (d : EJones) (stokes_i : ascii) : result (nat -> nat -> fl) :=
  let up := ascii_upper stokes_i in
  if Ascii.eqb up "I" then
    Ok (fun t f => fadd (re (jones d t f 0 0)) (re (jones d t f 1 1)))
  else if Ascii.eqb up "Q" then
    Ok (fun t f => fsub (re (jones d t f 0 0)) (re (jones d t f 1 1)))
  else if Ascii.eqb up "U" then
    Ok (fun t f => fmul (re (jones d t f 0 1)) (Fin 2))
  else if Ascii.eqb up "V" then
    Ok (fun t f => fmul (im (jones d t f 0 1)) (Fin 2))
  else Raise NotImplementedError.

(** [data_i[..., None]] *)
Definition expand_last (nt nf : nat) (plane : nat -> nat -> fl) : Array3 :=
  MkArray3 nt nf 1 (fun t f _ => plane t f).

(** [da.concatenate([a, b], axis=-1)] *)
Definition concat_pol (a b : Array3) : Array3 :=
  MkArray3 (ntimes a) (nfreqs a) (npols a + npols b)
    (fun t f p => if p <? npols a then cell a t f p else cell b t f (p - npols a)).

(** The [for stokes_i in stokes] loop of [_Lane.get_stokes]; [data] is
    [None] until the first letter has been handled. *)
Fixpoint get_stokes_loop (d : EJones) (stokes : list ascii) (data : option Array3)
  : result (option Array3) :=
  match stokes with
  | [] => Ok data
  | stokes_i :: rest =>
      data_i ← stokes_plane d stokes_i;
      let new := expand_last (e_ntimes d) (e_nfreqs d) data_i in
      get_stokes_loop d rest
        (Some (match data with None => new | Some acc => concat_pol acc new end))
  end.

Definition get_stokes (d : EJones) (stokes : string) : result (option Array3) :=
  get_stokes_loop d (list_ascii_of_string stokes) None.

(** A synthetic coherency cube: the same raw samples at every (time,
    frequency) position. *)
Definition synthetic_ejones (nt nf : nat) (xx yy rexy imxy : Q) : EJones :=
  MkEJones nt nf
    (fun t f =>
       _to_ejones
         (fun (_ : nat * nat) k => match k with O => Fin xx | S _ => Fin yy end)
         (fun (_ : nat * nat) k => match k with O => Fin rexy | S _ => Fin imxy end)
         (t, f)).

(** ** _Lane: decoding and axis reconstruction *)

(** The decoded content of one [*.spectra] file: the header fields of
    [HEADER_STRUCT] and, for each of the [n_blocks] whole records found
    in the file, the per-subband fields of the beamlet structure. *)
Record LaneFile := MkLaneFile {
  idx : Z;
  TIMESTAMP : Z;
  BLOCKSEQNUMBER : Z;
  fftlen : Z;
  nfft2int : Z;
  fftovlp : Z;
  apodisation : Z;
  nffte : Z;
  nbchan : Z;
  n_blocks : nat;
  rec_lane : nat -> nat -> Z;
  rec_beam : nat -> nat -> Z;
  rec_channel : nat -> nat -> Z;
  rec_fft0 : nat -> nat -> nat -> nat -> nat -> fl;
  rec_fft1 : nat -> nat -> nat -> nat -> nat -> fl
}.

(** What lives outside this module: the operating system ([abspath],
    and [fs], which answers [isfile] and yields the decoded content), the
    dispersion law of [nenupy.astro], and the numerical kernels of the
    bandpass and gain-jump corrections. *)
Class World := MkWorld {
  abspath : string -> string;
  fs : string -> option LaneFile;
  (** [nenupy.astro.dispersion_delay(frequency, dispersion_measure)], in s *)
  dispersion_delay : Q -> Q -> Q;
  (** the 'standard', 'median' and 'adjusted' branches of [_bp_correct] *)
  bandpass_kernel : string -> Z -> Array3 -> result Array3;
  (** the fitting performed by [_correct_jumps] when it is switched on *)
  jumps_kernel : Array3 -> Q -> result Array3
}.

(** The attributes of a [_Lane] after [_load]. The keys of [beam_idx]
    are [str(b)] in the source; [str] is injective on integers, and the
    integer itself is kept as the key. *)
Record Lane := MkLane {
  lanefile : string;
  lane_index : Z;
  data : EJones;
  time_unix : list Q;
  frequency_hz : list Q;
  dt : Q;
  df : Q;
  n_channels : Z;
  _fmin : Q;
  _fmax : Q;
  beam_idx : gmap Z (Z * Z)
}.

(** The literal [5.12e-6]. *)
Definition sample_period : Q := (512 # 100000000)%Q.

Definition lane_dt (n_channels nfft2int : Z) : Q :=
  (sample_period * inject_Z n_channels * inject_Z nfft2int)%Q.

Definition lane_df (n_channels : Z) : Q :=
  (1 / sample_period / inject_Z n_channels)%Q.



(** The match of [_(?P<index>\d).spectra$] looked for by the [lanefile]
    setter of [_Lane]: [$] also matches before one final newline, and the
    unescaped dot is any character but a newline. The digit is returned. *)
Definition is_newline (c : ascii) : bool := Ascii.eqb c "010".

Definition digit_of (c : ascii) : option Z :=
  let n := nat_of_ascii c in
  if (48 <=? n) && (n <=? 57) then Some (Z.of_nat (n - 48)) else None.

Definition lane_pattern (l : string) : option Z :=
  let rev_chars := rev (list_ascii_of_string l) in
  let body := match rev_chars with
              | c :: rest => if is_newline c then rest else rev_chars
              | [] => []
              end in
  match body with
  | "a" :: "r" :: "t" :: "c" :: "e" :: "p" :: "s" :: any :: d :: "_" :: _ =>
      if is_newline any then None else digit_of d
  | _ => None
  end%char.

(** [_Lane._to2d] on the coherency array (six axes, the last two kept in
    [A]): [data] is indexed (time block, subband, sample, channel). *)
Definition _to2d {A} (ntb nfb : nat) (data : nat -> nat -> nat -> nat -> A)
    (nffte n_channels : Z) : result (nat * nat * (nat -> nat -> A)) :=
  let n_times := (ntb * Z.to_nat nffte)%nat in
  let n_freqs := (nfb * Z.to_nat n_channels)%nat in
  if negb (n_channels mod 2 =? 0)%Z then Raise ValueError
  else
    let ns := Z.to_nat nffte in
    let nch := Z.to_nat n_channels in
    let half := Z.to_nat (n_channels / 2) in
    (* np.swapaxes(data, 1, 2).reshape(temp_shape),
       temp_shape = (n_times, n_freqs/n_channels, 2, n_channels/2) *)
    let temp t sb h c := data (t / ns) sb (t mod ns) (h * half + c) in
    (* data[:, :, ::-1, ...] *)
    let inverted t sb h c := temp t sb (1 - h) c in
    (* .reshape(final_shape), final_shape = (n_times, n_freqs) *)
    Ok (n_times, n_freqs,
        fun t f => inverted t (f / nch) ((f mod nch) / half) ((f mod nch) mod half)).

(** [_Lane._compute_times] *)
Definition _compute_times (unix_start : Z) (dt : Q) (n_times : nat)
    (block_seq_number : Z) : list Q :=
  tabulate n_times (fun i =>
    (inject_Z (Z.of_nat i) * dt
     + (inject_Z unix_start + inject_Z block_seq_number / (1953125 # 10)))%Q).

(** [_Lane._compute_frequencies] *)
Definition _compute_frequencies (n_channels : Z) (n_subbands : nat) (df : Q)
    (subband_channels : nat -> Z) : list Q :=
  let subband_width := (df * inject_Z n_channels)%Q in
  let nch := Z.to_nat n_channels in
  tabulate (n_subbands * nch) (fun i =>
    let k := (i mod nch)%nat in
    let s := (i / nch)%nat in
    ((inject_Z (Z.of_nat k) - inject_Z n_channels / 2) * df
     + inject_Z (subband_channels s) * subband_width)%Q).

(** [np.unique] on integers. *)
Definition np_unique (l : list Z) : list Z := merge_sort Z.le (remove_dups l).

(** [np.where(beam_array == b)[0]] *)
Definition where_eq (beam_array : list Z) (b : Z) : list nat :=
  filter (fun i => beam_array !! i = Some b) (seq 0 (length beam_array)).

(** [_Lane._sort_beam_edges] *)
Definition _sort_beam_edges (beam_array : list Z) (n_channels : Z)
  : result (gmap Z (Z * Z)) :=
  foldl (fun indices b =>
           ind ← indices;
           let b_idx := where_eq beam_array b in
           match head b_idx, last b_idx with
           | Some first, Some final =>
               Ok (<[b := ((Z.of_nat first * n_channels)%Z,
                           ((Z.of_nat final + 1) * n_channels)%Z)]> ind)
           | _, _ => Raise IndexError
           end)
        (Ok ∅) (np_unique beam_array).

Definition Zmin_list (l : list Z) : option Z :=
  match l with
  | [] => None
  | x :: l' => Some (foldl Z.min x l')
  end.

Definition Zmax_list (l : list Z) : option Z :=
  match l with
  | [] => None
  | x :: l' => Some (foldl Z.max x l')
  end.

(** [_Lane._load], once the file has been decoded. numpy refuses a
    negative dimension in the record type, and a zero channel count makes
    [_to2d] fail on its shape computation: both are a [ValueError]. A file
    without a whole record has no first block to read the channels from. *)
Definition _load (lanefile : string) (lane_index : Z) (file : LaneFile) : result Lane :=
  let n_channels := fftlen file in
  let nffte := nffte file in
  let nfft2int := nfft2int file in
  let n_subbands := nbchan file in
  let dt := lane_dt n_channels nfft2int in
  let df := lane_df n_channels in
  if (n_channels <=? 0)%Z || (nffte <? 0)%Z || (n_subbands <? 0)%Z then Raise ValueError
  else
    let nsb := Z.to_nat n_subbands in
    let ejones :=
      _to_ejones
        (fun j : nat * nat * nat * nat => rec_fft0 file j.1.1.1 j.1.1.2 j.1.2 j.2)
        (fun j : nat * nat * nat * nat => rec_fft1 file j.1.1.1 j.1.1.2 j.1.2 j.2) in
    '(n_times, n_freqs, cube) ←
      _to2d (n_blocks file) nsb (fun tb sb s c => ejones (tb, sb, s, c)) nffte n_channels;
    if (n_blocks file =? 0)%nat then Raise IndexError
    else
      let channels := rec_channel file 0 in
      let channel_list := tabulate nsb channels in
      let n_timeblocks := n_blocks file in
      let time_unix :=
        _compute_times (TIMESTAMP file) dt (n_timeblocks * Z.to_nat nffte)
          (BLOCKSEQNUMBER file) in
      let frequency_hz := _compute_frequencies n_channels nsb df channels in
      match Zmin_list channel_list, Zmax_list channel_list with
      | Some cmin, Some cmax =>
          beam_idx ← _sort_beam_edges (tabulate nsb (rec_beam file 0)) n_channels;
          Ok {| lanefile := lanefile;
                lane_index := lane_index;
                data := MkEJones n_times n_freqs cube;
                time_unix := time_unix;
                frequency_hz := frequency_hz;
                dt := dt;
                df := df;
                n_channels := n_channels;
                _fmin := (df * inject_Z n_channels * (inject_Z cmin - 1 / 2))%Q;
                _fmax := (df * inject_Z n_channels * (inject_Z cmax + 1 / 2))%Q;
                beam_idx := beam_idx |}
      | _, _ => Raise ValueError
      end.

(** [_Lane.__init__]: the [lanefile] setter, then [_load]. *)
Definition _Lane `{World} (lanefile : string) : result Lane :=
  let l := abspath lanefile in
  match fs l with
  | None => Raise FileNotFoundError
  | Some file =>
      match lane_pattern l with
      | None => Raise ValueError
      | Some index => _load l index file
      end
  end.

(** ** Dynspec: state and validated attributes *)

Record Dynspec := MkDynspec {
  lanes : list Lane;
  _lanefiles : option (list string);
  _time_range : option (Q * Q);
  _freq_range : option (Q * Q);
  _beam : Z;
  _dispersion_measure : option Q;
  _rebin_dt : option Q;
  _rebin_df : option Q;
  _jump_correction : bool;
  _bp_correction : string;
  _edge_channels_to_remove : Z;
  clean_rfi : bool
}.

Definition set_lanes (v : list Lane) (s : Dynspec) : Dynspec :=
  MkDynspec v (_lanefiles s) (_time_range s) (_freq_range s) (_beam s)
    (_dispersion_measure s) (_rebin_dt s) (_rebin_df s) (_jump_correction s)
    (_bp_correction s) (_edge_channels_to_remove s) (clean_rfi s).

Definition set__lanefiles (v : list string) (s : Dynspec) : Dynspec :=
  MkDynspec (lanes s) (Some v) (_time_range s) (_freq_range s) (_beam s)
    (_dispersion_measure s) (_rebin_dt s) (_rebin_df s) (_jump_correction s)
    (_bp_correction s) (_edge_channels_to_remove s) (clean_rfi s).

Definition set__time_range (v : Q * Q) (s : Dynspec) : Dynspec :=
  MkDynspec (lanes s) (_lanefiles s) (Some v) (_freq_range s) (_beam s)
    (_dispersion_measure s) (_rebin_dt s) (_rebin_df s) (_jump_correction s)
    (_bp_correction s) (_edge_channels_to_remove s) (clean_rfi s).

Definition set__freq_range (v : Q * Q) (s : Dynspec) : Dynspec :=
  MkDynspec (lanes s) (_lanefiles s) (_time_range s) (Some v) (_beam s)
    (_dispersion_measure s) (_rebin_dt s) (_rebin_df s) (_jump_correction s)
    (_bp_correction s) (_edge_channels_to_remove s) (clean_rfi s).

Definition set__beam (v : Z) (s : Dynspec) : Dynspec :=
  MkDynspec (lanes s) (_lanefiles s) (_time_range s) (_freq_range s) v
    (_dispersion_measure s) (_rebin_dt s) (_rebin_df s) (_jump_correction s)
    (_bp_correction s) (_edge_channels_to_remove s) (clean_rfi s).

Definition set__dispersion_measure (v : option Q) (s : Dynspec) : Dynspec :=
  MkDynspec (lanes s) (_lanefiles s) (_time_range s) (_freq_range s) (_beam s)
    v (_rebin_dt s) (_rebin_df s) (_jump_correction s)
    (_bp_correction s) (_edge_channels_to_remove s) (clean_rfi s).

Definition set__rebin_dt (v : option Q) (s : Dynspec) : Dynspec :=
  MkDynspec (lanes s) (_lanefiles s) (_time_range s) (_freq_range s) (_beam s)
    (_dispersion_measure s) v (_rebin_df s) (_jump_correction s)
    (_bp_correction s) (_edge_channels_to_remove s) (clean_rfi s).

Definition set__rebin_df (v : option Q) (s : Dynspec) : Dynspec :=
  MkDynspec (lanes s) (_lanefiles s) (_time_range s) (_freq_range s) (_beam s)
    (_dispersion_measure s) (_rebin_dt s) v (_jump_correction s)
    (_bp_correction s) (_edge_channels_to_remove s) (clean_rfi s).

Definition set__edge_channels_to_remove (v : Z) (s : Dynspec) : Dynspec :=
  MkDynspec (lanes s) (_lanefiles s) (_time_range s) (_freq_range s) (_beam s)
    (_dispersion_measure s) (_rebin_dt s) (_rebin_df s) (_jump_correction s)
    (_bp_correction s) v (clean_rfi s).

(** *** lanefiles *)

(** The value assigned to [lanefiles]: a list, or anything else, which
    the setter wraps in a list. *)
Inductive lanefiles_arg :=
| PyList (l : list string)
| PyStr (l : string).

(** The [for li in map(abspath, l)] loop of the [lanefiles] setter. The
    lanes list is mutated in place: what was appended before an exception
    stays appended, so the list is returned next to the outcome. *)
Fixpoint lanefiles_loop `{World} (l : list string) (lanes : list Lane)
  : list Lane * result unit :=
  match l with
  | [] => (lanes, Ok ())
  | li :: rest =>
      let li := abspath li in
      match fs li with
      | None => (lanes, Raise FileNotFoundError)
      | Some _ =>
          match _Lane li with
          | Ok lane => lanefiles_loop rest (lanes ++ [lane])
          | Raise e => (lanes, Raise e)
          end
      end
  end.

(** The [lanefiles] setter. The check that the files belong to the same
    observation is commented out in the source ("TO REDO"). *)
Definition lanefiles_setter `{World} (l : lanefiles_arg) (self : Dynspec)
  : Dynspec * result unit :=
  let l := match l with PyList l => l | PyStr s => [s] end in
  let l := map abspath l in
  let '(lanes', outcome) := lanefiles_loop l (lanes self) in
  match outcome with
  | Ok _ => (set__lanefiles l (set_lanes lanes' self), Ok ())
  | Raise e => (set_lanes lanes' self, Raise e)
  end.

(** *** Aggregates over the lanes *)

(** [li.tmin] and [li.tmax]: the first and last time stamps. *)
Definition lane_tmin (li : Lane) : result Q :=
  match head (time_unix li) with Some t => Ok t | None => Raise IndexError end.
Definition lane_tmax (li : Lane) : result Q :=
  match last (time_unix li) with Some t => Ok t | None => Raise IndexError end.

(** [min(g(li) for li in self.lanes)] and its [max] twin. *)
Definition aggregate (pick : Q -> Q -> Q) (g : Lane -> result Q) (ls : list Lane)
  : result Q :=
  match ls with
  | [] => Raise ValueError
  | li :: rest =>
      first ← g li;
      foldl (fun acc li => a ← acc; x ← g li; Ok (pick a x)) (Ok first) rest
  end.

Definition tmin (self : Dynspec) : result Q := aggregate Qmin lane_tmin (lanes self).
Definition tmax (self : Dynspec) : result Q := aggregate Qmax lane_tmax (lanes self).
Definition fmin (self : Dynspec) : result Q :=
  aggregate Qmin (fun li => Ok (_fmin li)) (lanes self).
Definition fmax (self : Dynspec) : result Q :=
  aggregate Qmax (fun li => Ok (_fmax li)) (lanes self).

(** [self.nchan]: the value of the first lane (the warning logged when
    lanes disagree is not recorded). *)
Definition nchan (self : Dynspec) : result Z :=
  match lanes self with li :: _ => Ok (n_channels li) | [] => Raise IndexError end.

(** [self.beams] *)
Definition beams (self : Dynspec) : list Z :=
  np_unique (concat (map (fun li => (map_to_list (beam_idx li)).*1) (lanes self))).

(** *** time_range, freq_range, beam, dispersion_measure, rebinning *)

Definition time_range (self : Dynspec) : result (Q * Q) :=
  match _time_range self with
  | Some r => Ok r
  | None => a ← tmin self; b ← tmax self; Ok (a, b)
  end.

Definition time_range_setter (t : Q * Q) (self : Dynspec) : result Dynspec :=
  if Qle_bool t.2 t.1 then Raise ValueError else Ok (set__time_range t self).

Definition freq_range (self : Dynspec) : result (Q * Q) :=
  match _freq_range self with
  | Some r => Ok r
  | None => a ← fmin self; b ← fmax self; Ok (a, b)
  end.

Definition freq_range_setter (f : Q * Q) (self : Dynspec) : result Dynspec :=
  if Qle_bool f.2 f.1 then Raise ValueError else Ok (set__freq_range f self).

Definition beam_setter (b : Z) (self : Dynspec) : result Dynspec :=
  if bool_decide (b ∈ beams self) then Ok (set__beam b self)
  else match beams self with
       | b0 :: _ => Ok (set__beam b0 self)
       | [] => Raise IndexError
       end.

Definition dispersion_measure_setter (dm : option Q) (self : Dynspec) : Dynspec :=
  set__dispersion_measure dm self.

Definition rebin_dt_setter (dt : option Q) (self : Dynspec) : Dynspec :=
  set__rebin_dt dt self.

Definition rebin_df_setter (df : option Q) (self : Dynspec) : Dynspec :=
  set__rebin_df df self.

(** *** edge_channels_to_remove *)

(** A value handed to a setter that tests [isinstance(n, int)]. *)
Inductive pyval :=
| PyInt (n : Z)
| PyOther.

(** The log records a setter emits, by level. *)
Inductive log_record :=
| LogWarning
| LogInfo.

Definition edge_channels_to_remove_setter (n : pyval) (self : Dynspec)
  : result (Dynspec * list log_record) :=
  let default_val := 0%Z in
  '(n, log) ←
    match n with
    | PyOther => Ok (default_val, [LogWarning])
    | PyInt n =>
        nch ← nchan self;
        if (n * 2 >? nch)%Z then Ok (default_val, [LogWarning])
        else if (n <? 0)%Z then Ok (default_val, [LogWarning])
        else Ok (n, [])
    end;
  let log := if (n >? 0)%Z then log ++ [LogInfo] else log in
  Ok (set__edge_channels_to_remove n self, log).

(** *** __init__ *)

Definition Dynspec_init `{World} (lanefiles : lanefiles_arg) : result Dynspec :=
  let self0 :=
    MkDynspec [] None None None 0 None None None false "none" 0 false in
  let '(self1, outcome) := lanefiles_setter lanefiles self0 in
  _ ← outcome;
  (* the properties printed by log.info *)
  _ ← tmin self1; _ ← tmax self1; _ ← fmin self1; _ ← fmax self1;
  self2 ← beam_setter 0 self1;
  r ← edge_channels_to_remove_setter (PyInt 0) self2;
  Ok r.1.

(** ** Dynspec: the correction stages *)

(** Basic slices. *)
Definition slice_list {A} (start stop : option Z) (l : list A) : list A :=
  let '(off, len) := py_slice start stop (length l) in take len (drop off l).

Definition slice_time (start stop : option Z) (a : Array3) : Array3 :=
  let '(off, len) := py_slice start stop (ntimes a) in
  MkArray3 len (nfreqs a) (npols a) (fun t f p => cell a (off + t) f p).

Definition slice_freq (start stop : option Z) (a : Array3) : Array3 :=
  let '(off, len) := py_slice start stop (nfreqs a) in
  MkArray3 (ntimes a) len (npols a) (fun t f p => cell a t (off + f) p).

(** Membership of an index in the range a slice selects. *)
Definition in_slice (sl : nat * nat) (i : nat) : bool :=
  (sl.1 <=? i) && (i <? sl.1 + sl.2).

(** [Dynspec._bp_correct]: only the 'none' branch is spelled out. *)
Definition _bp_correct `{World} (self : Dynspec) (data : Array3) (n_channels : Z)
  : result Array3 :=
  let mode := _bp_correction self in
  if bool_decide (mode = "standard") || bool_decide (mode = "median")
     || bool_decide (mode = "adjusted")
  then bandpass_kernel mode n_channels data
  else Ok data.

(** [Dynspec._remove_edge_channels]. A channel count that is not positive
    cannot come out of [_load]; the stage is given a [ValueError] there. *)
Definition _remove_edge_channels (self : Dynspec) (data : Array3) : result Array3 :=
  let n := _edge_channels_to_remove self in
  if (n >? 0)%Z then
    nchannels ← nchan self;
    if (nchannels <=? 0)%Z then Raise ValueError
    else
      let nch := Z.to_nat nchannels in
      let nsubbands := (nfreqs data / nch)%nat in
      if negb (nsubbands * nch =? nfreqs data)%nat then Raise ValueError
      else
        (* data.reshape((ntimes, nsubbands, nchannels, npols)) *)
        let folded t s c p := cell data t (s * nch + c) p in
        (* data[:, :, :n, :] = np.nan *)
        let lower t s c p :=
          if in_slice (py_slice None (Some n) nch) c then NaN else folded t s c p in
        (* data[:, :, -n:, :] = np.nan *)
        let upper t s c p :=
          if in_slice (py_slice (Some (- n)%Z) None nch) c then NaN else lower t s c p in
        (* data.reshape((ntimes, nfreqs, npols)) *)
        Ok (MkArray3 (ntimes data) (nfreqs data) (npols data)
              (fun t f p => upper t (f / nch) (f mod nch) p))
  else Ok data.

(** [Dynspec._clean]: the hook does nothing. *)
Definition _clean (self : Dynspec) (data : Array3) : Array3 := data.

(** [Dynspec._correct_jumps] *)
Definition _correct_jumps `{World} (self : Dynspec) (data : Array3) (dt : Q)
  : result Array3 :=
  if negb (_jump_correction self) then Ok data else jumps_kernel data dt.

(** One turn of the [for i in range(freqs.size)] loop of [_dedisperse]. *)
Definition dedisperse_channel (data : Array3) (i : nat) (cell_delay : Z) : Array3 :=
  (* data[:, i, :] = np.roll(data[:, i, :], -cell_delays[i], 0) *)
  let rolled t f p :=
    if (f =? i)%nat then cell data (roll_src (ntimes data) (- cell_delay) t) i p
    else cell data t f p in
  (* data[-cell_delays[i]:, i, :] = np.nan *)
  let masked := py_slice (Some (- cell_delay)%Z) None (ntimes data) in
  MkArray3 (ntimes data) (nfreqs data) (npols data)
    (fun t f p => if (f =? i)%nat && in_slice masked t then NaN else rolled t f p).

(** [cell_delays]: the delay of every channel relative to the upper end
    of the frequency selection, in time samples. *)
Definition cell_delays `{World} (freqs : list Q) (fref dm dt : Q) : list Z :=
  map (fun f => round_half_even
                  ((dispersion_delay f dm - dispersion_delay fref dm) / dt)%Q)
      freqs.

Definition dedisperse_loop (data : Array3) (delays : list Z) : Array3 :=
  foldl (fun data i => dedisperse_channel data i (delays !!! i))
        data (seq 0 (length delays)).

(** [Dynspec._dedisperse] *)
Definition _dedisperse `{World} (self : Dynspec) (data : Array3) (freqs : list Q)
    (dt : Q) : result Array3 :=
  match _dispersion_measure self with
  | None => Ok data
  | Some dm =>
      if negb (nfreqs data =? length freqs)%nat then Raise ValueError
      else
        fr ← freq_range self;
        Ok (dedisperse_loop data (cell_delays freqs fr.2 dm dt))
  end.

(** [np.nanmean] of a sequence of samples. *)
Definition nanmean (l : list fl) : fl :=
  let finite := omap (fun x => match x with Fin q => Some q | NaN => None end) l in
  match finite with
  | [] => NaN
  | _ => Fin (foldr Qplus 0%Q finite / inject_Z (Z.of_nat (length finite)))%Q
  end.

Definition Qmean (l : list Q) : Q :=
  (foldr Qplus 0%Q l / inject_Z (Z.of_nat (length l)))%Q.

(** The bin geometry shared by both halves of [_rebin]: from the axis
    length and the configured width over the native step, the number of
    bins, the samples left over, and the samples averaged per bin. *)
Record binning := MkBinning {
  bins : Z;       (* tbins / fbins *)
  nout : Z;       (* ntimes / nfreqs *)
  leftover : Z;   (* tleftover / fleftover *)
  per_bin : Z     (* int((n_i - leftover)/nout) *)
}.

Definition rebin_geometry (n_i : nat) (width step : Q) : result binning :=
  let bins := Qfloor (width / step)%Q in
  if (bins =? 0)%Z then Raise ZeroDivisionError
  else
    let nout := (Z.of_nat n_i / bins)%Z in
    if (nout =? 0)%Z then Raise ZeroDivisionError
    else
      let leftover := (Z.of_nat n_i mod nout)%Z in
      let per_bin := ((Z.of_nat n_i - leftover) ÷ nout)%Z in
      Ok (MkBinning bins nout leftover per_bin).

(** The stop of [[:-leftover if leftover != 0 else n_i]]. *)
Definition rebin_stop (n_i : nat) (leftover : Z) : Z :=
  if negb (leftover =? 0)%Z then (- leftover)%Z else Z.of_nat n_i.

(** [x[:stop].reshape((nout, per_bin))] followed by the mean of each
    row, on an axis of values. *)
Definition rebin_axis (g : binning) (n_i : nat) (axis : list Q) : result (list Q) :=
  let kept := slice_list None (Some (rebin_stop n_i (leftover g))) axis in
  if (nout g <? 0)%Z || (per_bin g <? 0)%Z
     || negb (Z.of_nat (length kept) =? nout g * per_bin g)%Z
  then Raise ValueError
  else
    let per := Z.to_nat (per_bin g) in
    Ok (tabulate (Z.to_nat (nout g)) (fun b => Qmean (take per (drop (b * per) kept)))).

Definition rebin_time (g : binning) (data : Array3) : result Array3 :=
  let kept := slice_time None (Some (rebin_stop (ntimes data) (leftover g))) data in
  if (nout g <? 0)%Z || (per_bin g <? 0)%Z
     || negb (Z.of_nat (ntimes kept) =? nout g * per_bin g)%Z
  then Raise ValueError
  else
    let per := Z.to_nat (per_bin g) in
    (* reshape((ntimes, per, nfreqs_i, npols_i)), then np.nanmean(axis=1) *)
    Ok (MkArray3 (Z.to_nat (nout g)) (nfreqs data) (npols data)
          (fun b f p => nanmean (tabulate per (fun j => cell kept (b * per + j) f p)))).

Definition rebin_freq (g : binning) (data : Array3) : result Array3 :=
  let kept := slice_freq None (Some (rebin_stop (nfreqs data) (leftover g))) data in
  if (nout g <? 0)%Z || (per_bin g <? 0)%Z
     || negb (Z.of_nat (nfreqs kept) =? nout g * per_bin g)%Z
  then Raise ValueError
  else
    let per := Z.to_nat (per_bin g) in
    (* reshape((ntimes_i, nfreqs, per, npols_i)), then np.nanmean(axis=2) *)
    Ok (MkArray3 (ntimes data) (Z.to_nat (nout g)) (npols data)
          (fun t b p => nanmean (tabulate per (fun j => cell kept t (b * per + j) p)))).

(** [Dynspec._rebin] *)
Definition _rebin (self : Dynspec) (data : Array3) (times freqs : list Q) (dt df : Q)
  : result (Array3 * list Q * list Q) :=
  '(data, times) ←
    match _rebin_dt self with
    | None => Ok (data, times)
    | Some rebin_dt =>
        g ← rebin_geometry (ntimes data) rebin_dt dt;
        data' ← rebin_time g data;
        times' ← rebin_axis g (ntimes data) times;
        Ok (data', times')
    end;
  '(data, freqs) ←
    match _rebin_df self with
    | None => Ok (data, freqs)
    | Some rebin_df =>
        g ← rebin_geometry (nfreqs data) rebin_df df;
        data' ← rebin_freq g data;
        freqs' ← rebin_axis g (nfreqs data) freqs;
        Ok (data', freqs')
    end;
  Ok (data, times, freqs).

(** ** Dynspec.get *)

(** The product built for one lane and stitched across lanes. *)
Record SData := MkSData {
  amp : Array3;
  time : list Q;
  freq : list Q;
  polar : string
}.

(** Modelled from the spec: the class [SData] and its operator [&]
    belong to [nenupy.beamlet], which is not part of this module. The
    specification has lanes combined "by concatenation along the frequency
    axis, in lane-processing order": the samples and the frequency axis of
    the right operand follow those of the left one. *)
Definition concat_freq (a b : Array3) : Array3 :=
  MkArray3 (ntimes a) (nfreqs a + nfreqs b) (npols a)
    (fun t f p => if (f <? nfreqs a)%nat then cell a t f p
                  else cell b t (f - nfreqs a) p).

Definition sdata_and (a b : SData) : SData :=
  MkSData (concat_freq (amp a) (amp b)) (time a) (freq a ++ freq b) (polar a).

(** What [get] has in hand for one lane once the indices are known and
    the high-rate data are sliced, before the correction stages run. *)
Record selection := MkSelection {
  sel_tmin_idx : nat;
  sel_tmax_idx : nat;
  sel_fmin_idx : Z;   (* after snapping *)
  sel_fmax_idx : Z;   (* after snapping *)
  sel_data : Array3;
  sel_freqs : list Q;
  sel_times : list Q
}.

(** The first half of the loop body of [get]: beam lookup, Stokes
    extraction, index search, snapping to subband edges and slicing.
    [None] stands for [continue]. *)
Definition get_select (self : Dynspec) (stokes : string) (li : Lane)
  : result (option selection) :=
  match beam_idx li !! _beam self with
  | None => Ok None
  | Some (beam_start, beam_stop) =>
      data ← get_stokes (data li) stokes;
      tr ← time_range self;
      tmin_idx ← nearest_index (time_unix li) tr.1;
      tmax_idx ← nearest_index (time_unix li) tr.2;
      fr ← freq_range self;
      let beam_freqs := slice_list (Some beam_start) (Some beam_stop) (frequency_hz li) in
      fmin_idx ← nearest_index beam_freqs fr.1;
      fmax_idx ← nearest_index beam_freqs fr.2;
      if (fmin_idx =? fmax_idx)%nat then Ok None
      else if (n_channels li =? 0)%Z then Raise ZeroDivisionError
      else
        let fmin_idx := (Z.of_nat fmin_idx / n_channels li * n_channels li)%Z in
        let fmax_idx := ((Z.of_nat fmax_idx / n_channels li + 1) * n_channels li)%Z in
        match data with
        | None => Raise TypeError
        | Some data =>
            let tmin := Some (Z.of_nat tmin_idx) in
            let tmax := Some (Z.of_nat tmax_idx) in
            let data :=
              slice_freq (Some fmin_idx) (Some fmax_idx)
                (slice_time tmin tmax
                   (slice_freq (Some beam_start) (Some beam_stop) data)) in
            Ok (Some (MkSelection tmin_idx tmax_idx fmin_idx fmax_idx data
                        (slice_list (Some fmin_idx) (Some fmax_idx) beam_freqs)
                        (slice_list tmin tmax (time_unix li))))
        end
  end.

(** The second half: the correction stages in their fixed order, then
    the product of the lane. *)
Definition get_process `{World} (self : Dynspec) (stokes : string) (li : Lane)
    (sel : selection) : result SData :=
  data ← _bp_correct self (sel_data sel) (n_channels li);
  let selfreqs := sel_freqs sel in
  data ← _remove_edge_channels self data;
  let data := _clean self data in
  data ← _correct_jumps self data (dt li);
  data ← _dedisperse self data selfreqs (dt li);
  '(data, seltimes, selfreqs) ← _rebin self data (sel_times sel) selfreqs (dt li) (df li);
  Ok (MkSData data seltimes selfreqs stokes).

(** The [for li in self.lanes] loop; [spec] is unbound until a lane has
    contributed. *)
Fixpoint get_loop `{World} (self : Dynspec) (stokes : string) (ls : list Lane)
    (spec : option SData) : result (option SData) :=
  match ls with
  | [] => Ok spec
  | li :: rest =>
      sel ← get_select self stokes li;
      match sel with
      | None => get_loop self stokes rest spec
      | Some sel =>
          sd ← get_process self stokes li sel;
          get_loop self stokes rest
            (Some (match spec with None => sd | Some acc => sdata_and acc sd end))
      end
  end.

(** [Dynspec.get]: [return spec] with [spec] never assigned is Python's
    [UnboundLocalError]. *)
Definition get `{World} (self : Dynspec) (stokes : string) : result SData :=
  spec ← get_loop self stokes (lanes self) None;
  match spec with
  | None => Raise UnboundLocalError
  | Some spec => Ok spec
  end.

(** ** Reference formulas and fixtures used by the statements *)

(** The Stokes parameters as the documentation of [get] writes them, on
    one 2x2 coherency matrix [m] indexed as the lane's data cube is. *)
Definition stokes_formula (m : nat -> nat -> complex) (letter : ascii) : fl :=
  if Ascii.eqb letter "I" then fadd (re (m 0 0)) (re (m 1 1))
  else if Ascii.eqb letter "Q" then fsub (re (m 0 0)) (re (m 1 1))
  else if Ascii.eqb letter "U" then fmul (re (m 0 1)) (Fin 2)
  else fmul (im (m 0 1)) (Fin 2).

Definition stokes_letter (c : ascii) : bool :=
  let up := ascii_upper c in
  Ascii.eqb up "I" || Ascii.eqb up "Q" || Ascii.eqb up "U" || Ascii.eqb up "V".

(** What [_load] guarantees about a lane and the stages of [get] rely
    on: a positive channel count, a frequency axis made of whole
    subbands, and beam ranges that start and stop on subband edges. *)
Record lane_wf (li : Lane) : Prop := MkLaneWf {
  wf_channels : (0 < n_channels li)%Z;
  wf_subbands : exists nsb : nat,
      e_nfreqs (data li) = (nsb * Z.to_nat (n_channels li))%nat
      /\ length (frequency_hz li) = (nsb * Z.to_nat (n_channels li))%nat
      /\ forall b start stop,
           beam_idx li !! b = Some (start, stop) ->
           exists i j : nat,
             (i < nsb)%nat /\ (j < nsb)%nat
             /\ start = (Z.of_nat i * n_channels li)%Z
             /\ stop = ((Z.of_nat j + 1) * n_channels li)%Z
}.

(** The list a [lanefiles] assignment iterates over. *)
Definition listed (l : lanefiles_arg) : list string :=
  match l with PyList l => l | PyStr s => [s] end.

(** The observation name of a lane file as the disabled check of the
    [lanefiles] setter computes it, [basename(l)[::-1].split('_', 1)[1]]:
    the reversed name with everything up to its first underscore removed,
    that is, the (reversed) prefix before the last underscore. *)
Fixpoint after_first (sep : ascii) (l : list ascii) : option (list ascii) :=
  match l with
  | [] => None
  | c :: rest => if Ascii.eqb c sep then Some rest else after_first sep rest
  end.

Fixpoint before_first (sep : ascii) (l : list ascii) : list ascii :=
  match l with
  | [] => []
  | c :: rest => if Ascii.eqb c sep then [] else c :: before_first sep rest
  end.

Definition obsname (l : string) : option string :=
  let reversed_basename := before_first "/" (rev (list_ascii_of_string l)) in
  string_of_list_ascii <$> after_first "_" reversed_basename.

(** A small capture: two records of two subbands, four channels per
    subband and two spectra per record, all subbands on one beam. *)
Definition demo_file (beam first_channel : Z) : LaneFile :=
  {| idx := 0;
     TIMESTAMP := 1600000000;
     BLOCKSEQNUMBER := 0;
     fftlen := 4;
     nfft2int := 1;
     fftovlp := 0;
     apodisation := 0;
     nffte := 2;
     nbchan := 2;
     n_blocks := 2;
     rec_lane := fun _ _ => 0%Z;
     rec_beam := fun _ _ => beam;
     rec_channel := fun _ sb => (first_channel + Z.of_nat sb)%Z;
     rec_fft0 := fun tb sb s c k =>
       Fin (inject_Z (Z.of_nat (1 + k + 2 * c + 10 * s + 100 * sb + 1000 * tb)));
     rec_fft1 := fun tb sb s c k =>
       Fin (inject_Z (Z.of_nat (k + c + s + sb + tb))) |}.

(** Modelled from the spec: [nenupy.astro.dispersion_delay] is not part
    of this module, and the specification only treats it as a pure
    function of frequency and dispersion measure. The demonstration world
    takes the cold-plasma law for it: the delay, in seconds, of a signal
    at [frequency] Hz for a dispersion measure in pc/cm3. *)
Definition cold_plasma_delay (frequency dm : Q) : Q :=
  (4148808000000000 * dm / (frequency * frequency))%Q.

(** A file system holding three captures, with paths that are already
    absolute: lanes 0 and 1 of two different observations, both on beam 0,
    and a lane 2 on beam 1. *)
Definition demo_world : World :=
  {| abspath := fun p => p;
     fs := fun p =>
       if bool_decide (p = "/data/OBS-A_0.spectra") then Some (demo_file 0 200)
       else if bool_decide (p = "/data/OBS-B_1.spectra") then Some (demo_file 0 202)
       else if bool_decide (p = "/data/OBS-B_2.spectra") then Some (demo_file 1 204)
       else None;
     dispersion_delay := cold_plasma_delay;
     bandpass_kernel := fun _ _ data => Ok data;
     jumps_kernel := fun data _ => Ok data |}.

Definition demo_lanefiles : lanefiles_arg :=
  PyList ["/data/OBS-A_0.spectra"; "/data/OBS-B_1.spectra"].

#[global] Instance fl_inhabited : Inhabited fl := populate NaN.

Definition array_of_lists (nt nf np : nat) (rows : list (list (list fl))) : Array3 :=
  MkArray3 nt nf np (fun t f p => ((rows !!! t) !!! f) !!! p).

(** The state [__init__] starts from, before any attribute is assigned. *)
Definition blank_dynspec : Dynspec :=
  MkDynspec [] None None None 0 None None None false "none" 0 false.

(** The observation built from the two captures. *)
Definition demo_dynspec : Dynspec :=
  match @Dynspec_init demo_world demo_lanefiles with
  | Ok self => self
  | Raise _ => blank_dynspec
  end.

Definition result_map {A B} (f : A -> B) (r : result A) : result B :=
  match r with Ok a => Ok (f a) | Raise e => Raise e end.

(** A test on every sample of an array. *)
Definition all_cells (P : fl -> bool) (a : Array3) : bool :=
  forallb (forallb (forallb P)) (to_lists a).

(** Two spectra of two channels, one polarization. *)
Definition demo_block : Array3 :=
  array_of_lists 2 2 1 [[[Fin 1]; [Fin 2]]; [[Fin 3]; [Fin 4]]].

(** One spectrum over two subbands of four channels. *)
Definition demo_spectrum : Array3 :=
  array_of_lists 1 8 1
    [[[Fin 1]; [Fin 2]; [Fin 3]; [Fin 4]; [Fin 5]; [Fin 6]; [Fin 7]; [Fin 8]]].

(** The second lane of the demonstration observation. *)
Definition demo_lane_B : Lane :=
  match _load "/data/OBS-B_1.spectra" 1 (demo_file 0 202) with
  | Ok li => li
  | Raise _ => MkLane "" 0 (MkEJones 0 0 (fun _ _ _ _ => of_real NaN)) [] [] 0 0 0 0 0 ∅
  end.

(** The demonstration observation with a dispersion measure of 0, and
    with a dispersion measure of 0.005 pc/cm3. *)
Definition demo_zero_measure : Dynspec :=
  dispersion_measure_setter (Some 0%Q) demo_dynspec.

Definition demo_dispersed : Dynspec :=
  dispersion_measure_setter (Some (5 # 1000)%Q) demo_dynspec.

(** The same with the frequency selection set to 39.0 - 39.1 MHz. *)
Definition demo_dispersed_band : Dynspec :=
  set__freq_range (39000000%Q, 39100000%Q) demo_dispersed.

Definition fl_red (x : fl) : fl :=
  match x with Fin q => Fin (Qred q) | NaN => NaN end.

(** A ramp of one hundred spectra, one channel, one polarization: the
    sample at time index [t] is [t]. *)
Definition demo_ramp : Array3 :=
  MkArray3 100 1 1 (fun t _ _ => Fin (inject_Z (Z.of_nat t))).

Definition demo_ramp_times : list Q :=
  tabulate 100 (fun t => (inject_Z (Z.of_nat t) * dt demo_lane_B)%Q).

(** The demonstration observation asked to average over a given number
    of native time steps. *)
Definition demo_rebin (width : Q) : Dynspec :=
  rebin_dt_setter (Some (width * dt demo_lane_B)%Q) demo_dynspec.

(** The demonstration observation restricted to 39.4 - 39.6 MHz, a band
    that only its second lane covers, and to 10 - 11 MHz, a band that no
    lane covers. *)
Definition demo_band : Dynspec :=
  match freq_range_setter (39400000%Q, 39600000%Q) demo_dynspec with
  | Ok self => self
  | Raise _ => demo_dynspec
  end.


(** An observation whose lanes carry different beams, with beam 1
    selected: only the second lane holds it. *)
Definition demo_two_beams : Dynspec :=
  match
    self ← @Dynspec_init demo_world
             (PyList ["/data/OBS-A_0.spectra"; "/data/OBS-B_2.spectra"]);
    beam_setter 1 self
  with
  | Ok self => self
  | Raise _ => blank_dynspec
  end.


(** ** Proof automation *)

(** Case analysis on every boolean comparison of the goal, closing the
    arithmetic that remains. *)
Ltac bool_cases :=
  repeat match goal with
         | |- context [(?a <? ?b)%Z] => destruct (Z.ltb_spec a b)
         | |- context [(?a <=? ?b)%Z] => destruct (Z.leb_spec a b)
         | |- context [(?a <? ?b)%nat] => destruct (Nat.ltb_spec a b)
         | |- context [(?a <=? ?b)%nat] => destruct (Nat.leb_spec a b)
         | |- context [(?a =? ?b)%nat] => destruct (Nat.eqb_spec a b)
         end;
  cbn [andb orb negb]; try reflexivity; try lia.


(** * Properties *)

(** ** Stokes extraction *)

Lemma stokes_plane_valid (d : EJones) (c : ascii) :
  stokes_letter c = true ->
  stokes_plane d c = Ok (fun t f => stokes_formula (jones d t f) (ascii_upper c)).
Proof.
  unfold stokes_letter, stokes_plane, stokes_formula.
  destruct (Ascii.eqb (ascii_upper c) "I"); [done|].
  destruct (Ascii.eqb (ascii_upper c) "Q"); [done|].
  destruct (Ascii.eqb (ascii_upper c) "U"); [done|].
  destruct (Ascii.eqb (ascii_upper c) "V"); [done|].
  discriminate.
Qed.


(** The loop extends the accumulated array by one polarization per
    letter, to the right, and leaves what was accumulated in place. *)
Lemma get_stokes_loop_some (d : EJones) (cs : list ascii) :
  forall acc : Array3,
    forallb stokes_letter cs = true ->
    ntimes acc = e_ntimes d -> nfreqs acc = e_nfreqs d ->
    exists out,
      get_stokes_loop d cs (Some acc) = Ok (Some out)
      /\ shape3 out = (e_ntimes d, e_nfreqs d, npols acc + length cs)
      /\ (forall t f k, k < npols acc -> cell out t f k = cell acc t f k)
      /\ (forall t f k c, cs !! k = Some c ->
            cell out t f (npols acc + k)
            = stokes_formula (jones d t f) (ascii_upper c)).
Proof.
  induction cs as [|c cs IH]; intros acc Hv Ht Hf.
  - exists acc. cbn. repeat split.
    + unfold shape3. rewrite Ht, Hf. f_equal. lia.
    + intros ? ? ? ? Hk. discriminate.
  - cbn in Hv. apply andb_prop in Hv as [Hc Hv].
    cbn [get_stokes_loop]. rewrite (stokes_plane_valid _ _ Hc). cbn [mbind result_bind].
    set (acc' := concat_pol acc _).
    destruct (IH acc' Hv) as (out & Hrun & Hshape & Hold & Hnew); [done..|].
    exists out. split; [exact Hrun|]. split; [|split].
    + rewrite Hshape. cbn. f_equal. lia.
    + intros t f k Hk. rewrite Hold by (cbn; lia).
      unfold acc', concat_pol; cbn [cell].
      apply Nat.ltb_lt in Hk. by rewrite Hk.
    + intros t f [|k] c' Hk.
      * injection Hk as <-. rewrite Nat.add_0_r, Hold by (cbn; lia).
        unfold acc', concat_pol; cbn [cell]. rewrite Nat.ltb_irrefl. done.
      * cbn in Hk. specialize (Hnew t f k c' Hk).
        rewrite <- Hnew. f_equal. unfold acc', concat_pol; cbn [npols expand_last]. lia.
Qed.

Lemma get_stokes_spec (d : EJones) (stokes : string) :
  stokes <> EmptyString ->
  forallb stokes_letter (list_ascii_of_string stokes) = true ->
  exists out,
    get_stokes d stokes = Ok (Some out)
    /\ shape3 out = (e_ntimes d, e_nfreqs d, String.length stokes)
    /\ forall t f k c,
         list_ascii_of_string stokes !! k = Some c ->
         cell out t f k = stokes_formula (jones d t f) (ascii_upper c).
Proof.
  unfold get_stokes. destruct stokes as [|c s]; [done|]. intros _ Hv.
  cbn [list_ascii_of_string] in *. cbn in Hv. apply andb_prop in Hv as [Hc Hv].
  cbn [get_stokes_loop]. rewrite (stokes_plane_valid _ _ Hc). cbn [mbind result_bind].
  set (acc := expand_last _ _ _).
  destruct (get_stokes_loop_some d (list_ascii_of_string s) acc Hv)
    as (out & Hrun & Hshape & Hold & Hnew); [done..|].
  exists out. split; [exact Hrun|]. split.
  - rewrite Hshape. cbn. f_equal.
    clear. induction s; cbn; [done|]. by f_equal.
  - intros t f [|k] c' Hk.
    + injection Hk as <-. rewrite Hold by (cbn; lia). done.
    + cbn in Hk. exact (Hnew t f k c' Hk).
Qed.

(** The entries of the assembled matrix in terms of the raw correlator
    outputs: the diagonal holds [XX] and [YY] as they are, and entry
    [(0, 1)], the one read by U and V, is [fft1[0] + i fft1[1]]. *)
Lemma to_ejones_entries {J} (fft0 fft1 : J -> nat -> fl) (j : J) :
  let m := _to_ejones fft0 fft1 j in
  m 0 0 = of_real (fft0 j 0)
  /\ m 1 1 = of_real (fft0 j 1)
  /\ m 0 1 = cadd (of_real (fft1 j 0)) (cmul imag_unit (of_real (fft1 j 1)))
  /\ m 1 0 = csub (of_real (fft1 j 0)) (cmul imag_unit (of_real (fft1 j 1))).
Proof. done. Qed.

Lemma to_ejones_offdiag_finite {J} (fft0 fft1 : J -> nat -> fl) (j : J) (a b : Q) :
  fft1 j 0 = Fin a -> fft1 j 1 = Fin b ->
  fl_equiv (re (_to_ejones fft0 fft1 j 0 1)) (Fin a)
  /\ fl_equiv (im (_to_ejones fft0 fft1 j 0 1)) (Fin b).
Proof.
  intros Ha Hb. cbn. rewrite Ha, Hb. cbn. split; ring.
Qed.

(** C4. For a non-empty request made of the letters I, Q, U, V in either
    case, [get_stokes] returns an array whose trailing axis has one entry
    per requested letter, in request order, the entry for a letter being
    I = Re(XX) + Re(YY), Q = Re(XX) - Re(YY), U = 2 Re(off-diagonal),
    V = 2 Im(off-diagonal) of the sample's coherency matrix. On the
    synthetic cube assembled from XX = 3, YY = 5 and zero cross terms,
    Stokes I is exactly 8 and Stokes Q exactly -2 at every sample. *)
Theorem get_stokes_request_order :
  (forall (d : EJones) (stokes : string),
      stokes <> EmptyString ->
      forallb stokes_letter (list_ascii_of_string stokes) = true ->
      exists out,
        get_stokes d stokes = Ok (Some out)
        /\ shape3 out = (e_ntimes d, e_nfreqs d, String.length stokes)
        /\ forall t f k c,
             list_ascii_of_string stokes !! k = Some c ->
             cell out t f k = stokes_formula (jones d t f) (ascii_upper c))
  /\ (forall nt nf : nat,
        exists out,
          get_stokes (synthetic_ejones nt nf 3 5 0 0) "IQ" = Ok (Some out)
          /\ shape3 out = (nt, nf, 2)
          /\ forall t f, cell out t f 0 = Fin 8 /\ cell out t f 1 = Fin (-2)).
Proof.
  split; [exact get_stokes_spec|].
  intros nt nf. eexists. split; [reflexivity|]. split; [reflexivity|].
  intros t f. split; reflexivity.
Qed.

Lemma get_stokes_request_order_witness :
  exists out,
    get_stokes (synthetic_ejones 2 4 3 5 1 (-7)) "uVi" = Ok (Some out)
    /\ shape3 out = (2, 4, 3)
    /\ forall t f k c,
         list_ascii_of_string "uVi" !! k = Some c ->
         cell out t f k
         = stokes_formula (jones (synthetic_ejones 2 4 3 5 1 (-7)) t f) (ascii_upper c).
Proof.
  apply (proj1 get_stokes_request_order (synthetic_ejones 2 4 3 5 1 (-7)) "uVi");
    [discriminate | reflexivity].
Defined.

(** ** Lane loading *)

Lemma tabulate_length {A} (n : nat) (f : nat -> A) : length (tabulate n f) = n.
Proof. unfold tabulate. by rewrite length_map, length_seq. Qed.


Lemma where_eq_bound (beam_array : list Z) (b : Z) (i : nat) :
  i ∈ where_eq beam_array b -> i < length beam_array.
Proof.
  unfold where_eq. intros Hi. apply list_elem_of_filter in Hi as [_ Hi].
  apply elem_of_seq in Hi. lia.
Qed.

Lemma sort_beam_edges_fold (beam_array : list Z) (n : Z) (bs : list Z) :
  forall (acc : gmap Z (Z * Z)) (out : gmap Z (Z * Z)),
    (forall b start stop, acc !! b = Some (start, stop) ->
       exists i j : nat,
         i < length beam_array /\ j < length beam_array
         /\ start = (Z.of_nat i * n)%Z /\ stop = ((Z.of_nat j + 1) * n)%Z) ->
    foldl (fun indices b =>
             ind ← indices;
             let b_idx := where_eq beam_array b in
             match head b_idx, last b_idx with
             | Some first, Some final =>
                 Ok (<[b := ((Z.of_nat first * n)%Z,
                             ((Z.of_nat final + 1) * n)%Z)]> ind)
             | _, _ => Raise IndexError
             end)
          (Ok acc) bs = Ok out ->
    forall b start stop, out !! b = Some (start, stop) ->
      exists i j : nat,
        i < length beam_array /\ j < length beam_array
        /\ start = (Z.of_nat i * n)%Z /\ stop = ((Z.of_nat j + 1) * n)%Z.
Proof.
  induction bs as [|b0 bs IH]; intros acc out Hacc Hrun.
  - cbn in Hrun. injection Hrun as <-. exact Hacc.
  - cbn [foldl] in Hrun. cbn [mbind result_bind] in Hrun.
    destruct (head (where_eq beam_array b0)) as [first|] eqn:Hh.
    2:{ exfalso. clear -Hrun. induction bs; cbn in Hrun; [discriminate|auto]. }
    destruct (last (where_eq beam_array b0)) as [final|] eqn:Hl.
    2:{ exfalso. clear -Hrun. induction bs; cbn in Hrun; [discriminate|auto]. }
    eapply IH; [|exact Hrun].
    intros b start stop Hb.
    destruct (decide (b0 = b)) as [->|Hne].
    + rewrite lookup_insert_eq in Hb. injection Hb as <- <-.
      exists first, final. repeat split.
      * apply (where_eq_bound _ b). apply head_Some_elem_of. exact Hh.
      * apply (where_eq_bound _ b). apply last_Some_elem_of. exact Hl.
    + rewrite lookup_insert_ne in Hb by done. eauto.
Qed.

Lemma sort_beam_edges_spec (beam_array : list Z) (n : Z) (out : gmap Z (Z * Z)) :
  _sort_beam_edges beam_array n = Ok out ->
  forall b start stop, out !! b = Some (start, stop) ->
    exists i j : nat,
      i < length beam_array /\ j < length beam_array
      /\ start = (Z.of_nat i * n)%Z /\ stop = ((Z.of_nat j + 1) * n)%Z.
Proof.
  unfold _sort_beam_edges. intros Hrun.
  eapply sort_beam_edges_fold; [|exact Hrun].
  intros b start stop Hb. rewrite lookup_empty in Hb. discriminate.
Qed.

(** What a successful [_load] has established. *)
Lemma load_inv (l : string) (i : Z) (file : LaneFile) (li : Lane) :
  _load l i file = Ok li ->
  (0 < fftlen file)%Z
  /\ (fftlen file mod 2 = 0)%Z
  /\ lanefile li = l
  /\ lane_index li = i
  /\ n_channels li = fftlen file
  /\ dt li = lane_dt (fftlen file) (nfft2int file)
  /\ df li = lane_df (fftlen file)
  /\ e_nfreqs (data li) = (Z.to_nat (nbchan file) * Z.to_nat (fftlen file))%nat
  /\ length (frequency_hz li) = (Z.to_nat (nbchan file) * Z.to_nat (fftlen file))%nat
  /\ _sort_beam_edges (tabulate (Z.to_nat (nbchan file)) (rec_beam file 0)) (fftlen file)
     = Ok (beam_idx li).
Proof.
  unfold _load, _to2d.
  destruct (fftlen file <=? 0)%Z eqn:Hn; [discriminate|].
  destruct (nffte file <? 0)%Z; [discriminate|].
  destruct (nbchan file <? 0)%Z; [discriminate|].
  cbn [orb].
  destruct (fftlen file mod 2 =? 0)%Z eqn:Heven; [|discriminate].
  cbn [negb mbind result_bind].
  destruct (n_blocks file =? 0)%nat; [discriminate|].
  destruct (Zmin_list _); [|discriminate].
  destruct (Zmax_list _); [|discriminate].
  destruct (_sort_beam_edges _ _) as [idxs|] eqn:Hsort; [|discriminate].
  cbn [mbind result_bind]. intros [= <-].
  cbn [lanefile lane_index n_channels dt df data e_nfreqs frequency_hz beam_idx].
  unfold _compute_frequencies. rewrite tabulate_length.
  repeat split; try done; lia.
Qed.

Lemma load_wf (l : string) (i : Z) (file : LaneFile) (li : Lane) :
  _load l i file = Ok li -> lane_wf li.
Proof.
  intros Hload. apply load_inv in Hload
    as (Hpos & _ & _ & _ & Hn & _ & _ & Hfreqs & Haxis & Hsort).
  split; [lia|].
  exists (Z.to_nat (nbchan file)). rewrite Hn. repeat split; [done..|].
  intros b start stop Hb.
  destruct (sort_beam_edges_spec _ _ _ Hsort b start stop Hb)
    as (i0 & j0 & Hi & Hj & -> & ->).
  rewrite tabulate_length in Hi, Hj. by exists i0, j0.
Qed.

Lemma Lane_wf `{World} (path : string) (li : Lane) :
  _Lane path = Ok li -> lane_wf li.
Proof.
  unfold _Lane. destruct (fs _); [|discriminate].
  destruct (lane_pattern _); [|discriminate]. apply load_wf.
Qed.

(** ** Native resolutions *)






(** ** The lanefiles attribute *)

(** The loop only ever extends the list it is given: its effect is that
    of the same loop started on an empty list, put after that list. *)
Lemma lanefiles_loop_app `{World} (l : list string) :
  forall lanes0 : list Lane,
    lanefiles_loop l lanes0
    = ((lanes0 ++ (lanefiles_loop l []).1), (lanefiles_loop l []).2).
Proof.
  induction l as [|li rest IH]; intros lanes0.
  - cbn. by rewrite app_nil_r.
  - cbn [lanefiles_loop].
    destruct (fs (abspath li)); [|cbn; by rewrite app_nil_r].
    destruct (_Lane (abspath li)) as [lane|e]; [|cbn; by rewrite app_nil_r].
    rewrite (IH (lanes0 ++ [lane])), (IH ([] ++ [lane])). cbn.
    by rewrite <- app_assoc.
Qed.

(** When the loop completes, it has built one lane per listed file. *)
Lemma lanefiles_loop_ok `{World} (l : list string) :
  (lanefiles_loop l []).2 = Ok () ->
  Forall2 (fun li path => _Lane (abspath path) = Ok li) (lanefiles_loop l []).1 l.
Proof.
  induction l as [|li rest IH]; [constructor|].
  cbn [lanefiles_loop].
  destruct (fs (abspath li)); [|discriminate].
  destruct (_Lane (abspath li)) as [lane|e] eqn:Hlane; [|discriminate].
  rewrite (lanefiles_loop_app rest ([] ++ [lane])). cbn. intros Hok.
  constructor; [done|]. by apply IH.
Qed.

Lemma lanefiles_setter_lanes `{World} (l : lanefiles_arg) (self : Dynspec) :
  lanes (lanefiles_setter l self).1
  = lanes self ++ (lanefiles_loop (map abspath (listed l)) []).1.
Proof.
  unfold lanefiles_setter. fold (listed l).
  rewrite (lanefiles_loop_app _ (lanes self)).
  by destruct (lanefiles_loop (map abspath (listed l)) []).2.
Qed.

Lemma lanefiles_setter_outcome `{World} (l : lanefiles_arg) (self : Dynspec) :
  (lanefiles_setter l self).2 = (lanefiles_loop (map abspath (listed l)) []).2.
Proof.
  unfold lanefiles_setter. fold (listed l).
  rewrite (lanefiles_loop_app _ (lanes self)).
  by destruct (lanefiles_loop (map abspath (listed l)) []).2 as [[]|].
Qed.

Lemma edge_setter_lanes (n : pyval) (self self' : Dynspec) (log : list log_record) :
  edge_channels_to_remove_setter n self = Ok (self', log) -> lanes self' = lanes self.
Proof.
  unfold edge_channels_to_remove_setter. destruct n as [n|].
  - destruct (nchan self) as [nch|]; [|discriminate]. cbn [mbind result_bind].
    destruct (n * 2 >? nch)%Z; [cbn; by intros [= <- _]|].
    destruct (n <? 0)%Z; cbn; by intros [= <- _].
  - cbn. by intros [= <- _].
Qed.

Lemma beam_setter_lanes (b : Z) (self self' : Dynspec) :
  beam_setter b self = Ok self' -> lanes self' = lanes self.
Proof.
  unfold beam_setter. case_bool_decide; [by intros [= <-]|].
  destruct (beams self); [discriminate|]. by intros [= <-].
Qed.

Lemma Dynspec_init_inv `{World} (l : lanefiles_arg) (self : Dynspec) :
  Dynspec_init l = Ok self ->
  (lanefiles_loop (map abspath (listed l)) []).2 = Ok ()
  /\ lanes self = (lanefiles_loop (map abspath (listed l)) []).1.
Proof.
  unfold Dynspec_init.
  pose proof (lanefiles_setter_lanes l
    (MkDynspec [] None None None 0 None None None false "none" 0 false)) as Hl.
  pose proof (lanefiles_setter_outcome l
    (MkDynspec [] None None None 0 None None None false "none" 0 false)) as Ho.
  destruct (lanefiles_setter l _) as [self1 outcome]. cbn in Hl, Ho. subst outcome.
  destruct (lanefiles_loop (map abspath (listed l)) []).2 as [[]|]; [|discriminate].
  cbn [mbind result_bind].
  destruct (tmin self1); [|discriminate]. cbn [mbind result_bind].
  destruct (tmax self1); [|discriminate]. cbn [mbind result_bind].
  destruct (fmin self1); [|discriminate]. cbn [mbind result_bind].
  destruct (fmax self1); [|discriminate]. cbn [mbind result_bind].
  destruct (beam_setter 0 self1) as [self2|] eqn:Hb; [|discriminate].
  cbn [mbind result_bind].
  destruct (edge_channels_to_remove_setter _ self2) as [[self3 log]|] eqn:He;
    [|discriminate].
  cbn. intros [= <-]. split; [done|].
  rewrite (edge_setter_lanes _ _ _ _ He), (beam_setter_lanes _ _ _ Hb). done.
Qed.

Lemma demo_dynspec_init : @Dynspec_init demo_world demo_lanefiles = Ok demo_dynspec.
Proof. vm_compute. reflexivity. Qed.

(** C3, evaluated on the code. Two captures whose names carry different
    observation prefixes are assigned to [lanefiles]: the assignment
    completes without an exception, both lanes are attached, and the
    constructor accepts the same list. *)
Theorem lanefiles_mixed_observations_accepted :
  obsname "/data/OBS-A_0.spectra" <> obsname "/data/OBS-B_1.spectra"
  /\ (@lanefiles_setter demo_world demo_lanefiles blank_dynspec).2 = Ok ()
  /\ map lanefile (lanes (@lanefiles_setter demo_world demo_lanefiles blank_dynspec).1)
     = ["/data/OBS-A_0.spectra"; "/data/OBS-B_1.spectra"]
  /\ is_ok (@Dynspec_init demo_world demo_lanefiles) = true.
Proof.
  split; [vm_compute; discriminate|].
  split; [vm_compute; reflexivity|].
  split; vm_compute; reflexivity.
Qed.

(** C10. Every assignment to [lanefiles] leaves the lanes already
    attached in place and puts the lanes it creates after them; when the
    assignment completes there is one new lane per listed file, in order.
    Assigning the same list twice, or constructing with a list and
    assigning it again, attaches every lane twice, and [get] then runs its
    loop over that duplicated list. *)
Theorem lanefiles_setter_appends `{World} (l : lanefiles_arg) (self : Dynspec) :
  let new := (lanefiles_loop (map abspath (listed l)) []).1 in
  let once := (lanefiles_setter l self).1 in
  let twice := (lanefiles_setter l once).1 in
  lanes once = lanes self ++ new
  /\ ((lanefiles_setter l self).2 = Ok () ->
      Forall2 (fun li path => _Lane (abspath path) = Ok li) new (map abspath (listed l)))
  /\ lanes twice = lanes self ++ new ++ new
  /\ (forall built,
        Dynspec_init l = Ok built ->
        lanes built = new
        /\ (lanefiles_setter l built).2 = Ok ()
        /\ lanes (lanefiles_setter l built).1 = new ++ new)
  /\ forall stokes,
       get twice stokes
       = (spec ← get_loop twice stokes (lanes self ++ new ++ new) None;
          match spec with
          | None => Raise UnboundLocalError
          | Some spec => Ok spec
          end).
Proof.
  intros new once twice.
  assert (Honce : lanes once = lanes self ++ new) by apply lanefiles_setter_lanes.
  assert (Htwice : lanes twice = lanes self ++ new ++ new).
  { unfold twice. rewrite lanefiles_setter_lanes, Honce. by rewrite <- app_assoc. }
  split; [exact Honce|]. split.
  { rewrite lanefiles_setter_outcome. apply lanefiles_loop_ok. }
  split; [exact Htwice|]. split.
  - intros built Hinit. apply Dynspec_init_inv in Hinit as [Hok Hlanes].
    split; [exact Hlanes|]. split.
    + by rewrite lanefiles_setter_outcome.
    + by rewrite lanefiles_setter_lanes, Hlanes.
  - intros stokes. unfold get. by rewrite Htwice.
Qed.

Lemma lanefiles_setter_appends_witness :
  (@lanefiles_setter demo_world demo_lanefiles demo_dynspec).2 = Ok ()
  /\ map lanefile (lanes (@lanefiles_setter demo_world demo_lanefiles demo_dynspec).1)
     = ["/data/OBS-A_0.spectra"; "/data/OBS-B_1.spectra";
        "/data/OBS-A_0.spectra"; "/data/OBS-B_1.spectra"].
Proof.
  destruct (@lanefiles_setter_appends demo_world demo_lanefiles blank_dynspec)
    as (_ & _ & _ & Hbuilt & _).
  destruct (Hbuilt demo_dynspec demo_dynspec_init) as (Hnew & Hok & Hlanes).
  split; [exact Hok|].
  rewrite Hlanes. vm_compute. reflexivity.
Defined.

(** ** Slices *)

(** [x[:n]] with [n >= 0] selects the indices below [min n len]. *)
Lemma in_slice_prefix (len : nat) (n : Z) (c : nat) :
  (0 <= n)%Z ->
  in_slice (py_slice None (Some n) len) c = (c <? Nat.min (Z.to_nat n) len)%nat.
Proof.
  intros Hn. unfold in_slice, py_slice, slice_bound. cbn [fst snd].
  destruct (Z.ltb_spec n 0); [lia|]. bool_cases.
Qed.

(** [x[-n:]] with [n > 0] selects the last [n] indices (all of them when
    [n] exceeds the length). *)
Lemma in_slice_suffix (len : nat) (n : Z) (c : nat) :
  (0 < n)%Z -> c < len ->
  in_slice (py_slice (Some (- n)%Z) None len) c = (len - Z.to_nat n <=? c)%nat.
Proof.
  intros Hn Hc. unfold in_slice, py_slice, slice_bound. cbn [fst snd].
  destruct (Z.ltb_spec (- n) 0); [|lia]. bool_cases.
Qed.

(** [x[-n:]] with [n <= 0] is [x[|n|:]]: with [n = 0] it selects every
    index. *)
Lemma in_slice_suffix_nonpos (len : nat) (n : Z) (c : nat) :
  (n <= 0)%Z -> c < len ->
  in_slice (py_slice (Some (- n)%Z) None len) c = (Z.to_nat (- n) <=? c)%nat.
Proof.
  intros Hn Hc. unfold in_slice, py_slice, slice_bound. cbn [fst snd].
  destruct (Z.ltb_spec (- n) 0); [lia|]. bool_cases.
Qed.

(** ** Edge-channel flagging *)

Lemma edge_setter_spec (self : Dynspec) (nch n : Z) :
  nchan self = Ok nch ->
  edge_channels_to_remove_setter (PyInt n) self
  = if (nch <? n * 2)%Z || (n <? 0)%Z
    then Ok (set__edge_channels_to_remove 0 self, [LogWarning])
    else Ok (set__edge_channels_to_remove n self,
             if (0 <? n)%Z then [LogInfo] else []).
Proof.
  intros Hnch. unfold edge_channels_to_remove_setter. rewrite Hnch.
  cbn [mbind result_bind]. rewrite Z.gtb_ltb.
  destruct (nch <? n * 2)%Z; [done|]. cbn [orb].
  destruct (n <? 0)%Z; [done|]. cbn [mbind result_bind].
  rewrite Z.gtb_ltb. by destruct (0 <? n)%Z.
Qed.

(** With nothing to remove the stage hands back the array it was given. *)
Lemma remove_edge_channels_noop (self : Dynspec) (data : Array3) :
  (_edge_channels_to_remove self <= 0)%Z ->
  _remove_edge_channels self data = Ok data.
Proof.
  intros Hn. unfold _remove_edge_channels. rewrite Z.gtb_ltb.
  destruct (Z.ltb_spec 0 (_edge_channels_to_remove self)); [lia|done].
Qed.

(** With [n > 0] channels to remove on whole subbands of [nch] channels,
    a sample is flagged exactly when its channel within the subband is
    among the first [n] or the last [n]. *)
Lemma remove_edge_channels_spec (self : Dynspec) (data : Array3) (nch : Z) (nsb : nat) :
  nchan self = Ok nch ->
  (0 < nch)%Z ->
  (0 < _edge_channels_to_remove self)%Z ->
  nfreqs data = (nsb * Z.to_nat nch)%nat ->
  exists out,
    _remove_edge_channels self data = Ok out
    /\ shape3 out = shape3 data
    /\ forall t f p,
         cell out t f p
         = let c := (f mod Z.to_nat nch)%nat in
           let n := Z.to_nat (_edge_channels_to_remove self) in
           if (c <? n)%nat || (Z.to_nat nch - n <=? c)%nat then NaN
           else cell data t f p.
Proof.
  intros Hnch Hpos Hn Hfreqs. unfold _remove_edge_channels.
  rewrite Z.gtb_ltb. destruct (Z.ltb_spec 0 (_edge_channels_to_remove self)); [|lia].
  rewrite Hnch. cbn [mbind result_bind].
  destruct (Z.leb_spec nch 0); [lia|].
  set (N := Z.to_nat nch) in *. assert (HN : N <> 0) by (unfold N; lia).
  rewrite Hfreqs, Nat.div_mul, Nat.eqb_refl by done. cbn [negb].
  eexists. split; [reflexivity|]. split; [by rewrite <- Hfreqs|].
  intros t f p. cbn [cell].
  assert (Hc : (f mod N < N)%nat) by (by apply Nat.mod_upper_bound).
  rewrite in_slice_suffix, in_slice_prefix by (done || lia).
  rewrite (Nat.mul_comm (f / N) N), <- Nat.div_mod_eq.
  set (c := (f mod N)%nat) in *. cbn zeta.
  destruct (Nat.leb_spec (N - Z.to_nat (_edge_channels_to_remove self)) c);
    [by rewrite orb_true_r|].
  rewrite orb_false_r.
  destruct (Nat.ltb_spec c (Z.to_nat (_edge_channels_to_remove self))); bool_cases.
Qed.

(** ** Dedispersion *)

(** The sample left at (t, f, p) once channel [f] has been handled with
    a delay of [c] time samples. *)
Lemma dedisperse_channel_cell (data : Array3) (i : nat) (c : Z) (t f p : nat) :
  cell (dedisperse_channel data i c) t f p
  = if (f =? i)%nat then
      if in_slice (py_slice (Some (- c)%Z) None (ntimes data)) t then NaN
      else cell data (roll_src (ntimes data) (- c) t) i p
    else cell data t f p.
Proof.
  unfold dedisperse_channel. cbn [cell].
  destruct (f =? i)%nat; cbn [andb]; [|done].
  by destruct (in_slice _ t).
Qed.

Lemma dedisperse_prefix (data : Array3) (delays : list Z) (k : nat) :
  let out := foldl (fun data i => dedisperse_channel data i (delays !!! i))
                   data (seq 0 k) in
  shape3 out = shape3 data
  /\ forall t f p,
       cell out t f p
       = if (f <? k)%nat then
           if in_slice (py_slice (Some (- (delays !!! f))%Z) None (ntimes data)) t
           then NaN
           else cell data (roll_src (ntimes data) (- (delays !!! f)) t) f p
         else cell data t f p.
Proof.
  induction k as [|k [IHs IHc]]; [done|].
  rewrite seq_S, foldl_app. cbn [foldl Nat.add].
  set (acc := foldl _ data (seq 0 k)) in *. cbn zeta.
  split; [exact IHs|].
  intros t f p. rewrite dedisperse_channel_cell.
  assert (Hnt : ntimes acc = ntimes data) by (by injection IHs).
  rewrite Hnt.
  destruct (Nat.eqb_spec f k) as [->|Hne].
  - rewrite IHc. destruct (Nat.ltb_spec k k); [lia|].
    destruct (Nat.ltb_spec k (S k)); [done|lia].
  - rewrite IHc. bool_cases.
Qed.

(** The closed form of the loop of [_dedisperse]. *)
Lemma dedisperse_loop_cell (data : Array3) (delays : list Z) :
  shape3 (dedisperse_loop data delays) = shape3 data
  /\ forall t f p,
       cell (dedisperse_loop data delays) t f p
       = if (f <? length delays)%nat then
           if in_slice (py_slice (Some (- (delays !!! f))%Z) None (ntimes data)) t
           then NaN
           else cell data (roll_src (ntimes data) (- (delays !!! f)) t) f p
         else cell data t f p.
Proof. apply dedisperse_prefix. Qed.

(** A channel shifted by zero samples is masked from index [-0 = 0] on:
    its whole time series is lost. *)
Lemma dedisperse_loop_zero_delay (data : Array3) (delays : list Z) (i t p : nat) :
  delays !! i = Some 0%Z ->
  t < ntimes data ->
  cell (dedisperse_loop data delays) t i p = NaN.
Proof.
  intros Hi Ht. destruct (dedisperse_loop_cell data delays) as [_ ->].
  pose proof (lookup_lt_Some _ _ _ Hi) as Hlt.
  destruct (Nat.ltb_spec i (length delays)); [|lia].
  rewrite (list_lookup_total_correct _ _ _ Hi).
  by rewrite (in_slice_suffix_nonpos _ 0%Z) by (done || lia).
Qed.

(** A channel shifted by [c] samples, [0 < c < ntimes], keeps its first
    [ntimes - c] samples, taken [c] samples later in the input. *)
Lemma dedisperse_loop_positive_delay (data : Array3) (delays : list Z) (c : Z)
    (i t p : nat) :
  delays !! i = Some c ->
  (0 < c)%Z ->
  (Z.of_nat t + c < Z.of_nat (ntimes data))%Z ->
  cell (dedisperse_loop data delays) t i p = cell data (t + Z.to_nat c) i p.
Proof.
  intros Hi Hc Ht. destruct (dedisperse_loop_cell data delays) as [_ ->].
  pose proof (lookup_lt_Some _ _ _ Hi) as Hlt.
  destruct (Nat.ltb_spec i (length delays)); [|lia].
  rewrite (list_lookup_total_correct _ _ _ Hi).
  rewrite in_slice_suffix by lia.
  destruct (Nat.leb_spec (ntimes data - Z.to_nat c) t); [lia|].
  f_equal. unfold roll_src. rewrite Z.mod_small by lia. lia.
Qed.

Lemma round_half_even_zero (q : Q) : (q == 0)%Q -> round_half_even q = 0%Z.
Proof.
  intros Hq. unfold round_half_even.
  assert (Hf : Qfloor q = 0%Z) by (by rewrite Hq).
  rewrite Hf.
  assert (Hc : Qcompare (q - inject_Z 0)%Q (1 # 2)%Q = Lt).
  { apply Qlt_alt. rewrite Hq. reflexivity. }
  by rewrite Hc.
Qed.

(** A channel sitting exactly on the reference frequency has no delay. *)
Lemma cell_delays_reference `{World} (freqs : list Q) (fref dm dt : Q) (i : nat) :
  freqs !! i = Some fref -> cell_delays freqs fref dm dt !! i = Some 0%Z.
Proof.
  intros Hi. unfold cell_delays. rewrite list_lookup_fmap, Hi. cbn. f_equal.
  apply round_half_even_zero. unfold Qdiv. ring.
Qed.

Lemma dedisperse_inv `{World} (self : Dynspec) (data out : Array3) (freqs : list Q)
    (dt dm : Q) :
  _dispersion_measure self = Some dm ->
  _dedisperse self data freqs dt = Ok out ->
  nfreqs data = length freqs
  /\ exists fr, freq_range self = Ok fr
       /\ out = dedisperse_loop data (cell_delays freqs fr.2 dm dt).
Proof.
  unfold _dedisperse. intros ->.
  destruct (Nat.eqb_spec (nfreqs data) (length freqs)); [|discriminate].
  cbn [negb]. destruct (freq_range self) as [fr|]; [|discriminate].
  cbn. intros [= <-]. eauto.
Qed.

(** When no channel is delayed, dedispersion returns an array of the
    same shape in which every sample is not-a-number. *)
Lemma dedisperse_no_delay_erases `{World} (self : Dynspec) (data out : Array3)
    (freqs : list Q) (dt dm : Q) :
  _dispersion_measure self = Some dm ->
  (forall f fref, (dispersion_delay f dm - dispersion_delay fref dm == 0)%Q) ->
  _dedisperse self data freqs dt = Ok out ->
  shape3 out = shape3 data
  /\ forall t f p, t < ntimes data -> f < nfreqs data -> cell out t f p = NaN.
Proof.
  intros Hdm Hflat Hrun.
  destruct (dedisperse_inv _ _ _ _ _ _ Hdm Hrun) as (Hlen & fr & _ & ->).
  split; [apply dedisperse_loop_cell|].
  intros t f p Ht Hf. apply dedisperse_loop_zero_delay; [|done].
  rewrite Hlen in Hf. destruct (lookup_lt_is_Some_2 freqs f Hf) as [x Hx].
  unfold cell_delays. rewrite list_lookup_fmap, Hx. cbn. f_equal.
  apply round_half_even_zero. unfold Qdiv. rewrite Hflat. ring.
Qed.

(** C1, evaluated on the code. With the dispersion measure set to 0 the
    stage does not hand its input back: on a block of finite samples it
    returns only not-a-number values, and a whole [get] run that yields
    finite samples without dedispersion yields none with a dispersion
    measure of 0. *)
Theorem dedisperse_zero_measure_erases :
  all_cells (fun x => negb (is_nan x)) demo_block = true
  /\ result_map to_lists
       (@_dedisperse demo_world demo_zero_measure demo_block
          [39000000%Q; 39100000%Q] (dt demo_lane_B))
     = Ok [[[NaN]; [NaN]]; [[NaN]; [NaN]]]
  /\ result_map (fun sd => all_cells (fun x => negb (is_nan x)) (amp sd))
       (@get demo_world demo_dynspec "I") = Ok true
  /\ result_map (fun sd => all_cells is_nan (amp sd))
       (@get demo_world demo_zero_measure "I") = Ok true.
Proof. repeat split; vm_compute; reflexivity. Qed.

Lemma dedisperse_run `{World} (self : Dynspec) (data : Array3) (freqs : list Q)
    (dt dm : Q) (fr : Q * Q) :
  _dispersion_measure self = Some dm ->
  nfreqs data = length freqs ->
  freq_range self = Ok fr ->
  _dedisperse self data freqs dt
  = Ok (dedisperse_loop data (cell_delays freqs fr.2 dm dt)).
Proof.
  intros Hdm Hlen Hfr. unfold _dedisperse. rewrite Hdm, Hlen, Nat.eqb_refl, Hfr. done.
Qed.

(** C9 (amended). Whenever dedispersion runs with a dispersion measure,
    on data whose frequency extent matches the frequency axis, it returns
    an array of the same shape in which every frequency channel whose
    relative delay rounds to zero time samples has its entire time series
    set to not-a-number; a channel whose frequency is the reference itself
    (the upper end of the selected frequency range) is such a channel. *)
Theorem dedisperse_zero_delay_channel `{World} (self : Dynspec) (data : Array3)
    (freqs : list Q) (dt dm : Q) (fr : Q * Q) :
  _dispersion_measure self = Some dm ->
  nfreqs data = length freqs ->
  freq_range self = Ok fr ->
  exists out,
    _dedisperse self data freqs dt = Ok out
    /\ shape3 out = shape3 data
    /\ (forall i, cell_delays freqs fr.2 dm dt !! i = Some 0%Z ->
          forall t p, t < ntimes data -> cell out t i p = NaN)
    /\ (forall i, freqs !! i = Some fr.2 ->
          forall t p, t < ntimes data -> cell out t i p = NaN).
Proof.
  intros Hdm Hlen Hfr. eexists. split; [by apply dedisperse_run|].
  split; [apply dedisperse_loop_cell|]. split.
  - intros i Hi t p Ht. by apply dedisperse_loop_zero_delay.
  - intros i Hi t p Ht. apply dedisperse_loop_zero_delay; [|done].
    by apply cell_delays_reference.
Qed.

Lemma dedisperse_zero_delay_channel_witness :
  exists out,
    @_dedisperse demo_world demo_dispersed_band demo_block
      [39000000%Q; 39100000%Q] (dt demo_lane_B) = Ok out
    /\ @cell_delays demo_world [39000000%Q; 39100000%Q] 39100000%Q (5 # 1000)%Q
         (dt demo_lane_B) = [3%Z; 0%Z]
    /\ cell out 0 1 0 = NaN /\ cell out 1 1 0 = NaN.
Proof.
  destruct (@dedisperse_zero_delay_channel demo_world demo_dispersed_band demo_block
              [39000000%Q; 39100000%Q] (dt demo_lane_B) (5 # 1000)%Q
              (39000000%Q, 39100000%Q) eq_refl eq_refl eq_refl)
    as (out & Hrun & _ & _ & Href).
  exists out. split; [exact Hrun|]. split; [vm_compute; reflexivity|].
  split; apply (Href 1); (reflexivity || (cbn; lia)).
Defined.

(** C9 as stated fails on the channel nearest the selected maximum
    frequency. In the second lane of the demonstration observation, with
    the default frequency selection and a dispersion measure of 0.005,
    that channel is the last one; its delay relative to the reference is
    two time samples, not zero, and its first sample survives. *)
Lemma nearest_channel_is_delayed :
  lanes demo_dispersed !! 1 = Some demo_lane_B
  /\ exists sel fr out,
       get_select demo_dispersed "I" demo_lane_B = Ok (Some sel)
       /\ freq_range demo_dispersed = Ok fr
       /\ ntimes (sel_data sel) = 3
       /\ nearest_index (sel_freqs sel) fr.2 = Ok 7
       /\ @cell_delays demo_world (sel_freqs sel) fr.2 (5 # 1000)%Q (dt demo_lane_B) !! 7
          = Some 2%Z
       /\ @_dedisperse demo_world demo_dispersed (sel_data sel) (sel_freqs sel)
            (dt demo_lane_B)
          = Ok out
       /\ cell out 0 7 0 = Fin 2207
       /\ ~ (forall t p, t < 3 -> cell out t 7 p = NaN).
Proof.
  split; [vm_compute; reflexivity|].
  eexists _, _, _. split; [vm_compute; reflexivity|].
  split; [vm_compute; reflexivity|].
  split; [reflexivity|].
  split; [vm_compute; reflexivity|].
  split; [vm_compute; reflexivity|].
  split; [reflexivity|].
  split; [vm_compute; reflexivity|].
  intros Hall. specialize (Hall 0 0 ltac:(lia)). revert Hall.
  vm_compute. discriminate.
Qed.

Lemma remove_edge_channels_half_erases (self : Dynspec) (data : Array3) (nch : Z)
    (nsb : nat) :
  nchan self = Ok nch ->
  (0 < nch)%Z ->
  (2 * _edge_channels_to_remove self = nch)%Z ->
  nfreqs data = (nsb * Z.to_nat nch)%nat ->
  exists out,
    _remove_edge_channels self data = Ok out
    /\ shape3 out = shape3 data
    /\ forall t f p, cell out t f p = NaN.
Proof.
  intros Hnch Hpos Hhalf Hfreqs.
  destruct (remove_edge_channels_spec self data nch nsb) as (out & Hrun & Hshape & Hcell);
    [done | done | lia | done |].
  exists out. split; [done|]. split; [done|].
  intros t f p. rewrite Hcell. cbn zeta.
  assert ((f mod Z.to_nat nch < Z.to_nat nch)%nat) by (apply Nat.mod_upper_bound; lia).
  bool_cases.
Qed.

(** C2, evaluated on the code. The demonstration observation has four
    channels per subband. Assigning 2, half of them, is not refused: the
    value 2 is stored and no warning is logged, whereas 3 is replaced by 0
    with a warning; with 2 stored, the flagging stage turns every sample
    of a spectrum into not-a-number. *)
Theorem edge_half_subband_accepted :
  nchan demo_dynspec = Ok 4%Z
  /\ edge_channels_to_remove_setter (PyInt 2) demo_dynspec
     = Ok (set__edge_channels_to_remove 2 demo_dynspec, [LogInfo])
  /\ edge_channels_to_remove_setter (PyInt 3) demo_dynspec
     = Ok (set__edge_channels_to_remove 0 demo_dynspec, [LogWarning])
  /\ result_map to_lists
       (_remove_edge_channels (set__edge_channels_to_remove 2 demo_dynspec) demo_spectrum)
     = Ok [[[NaN]; [NaN]; [NaN]; [NaN]; [NaN]; [NaN]; [NaN]; [NaN]]]
  /\ result_map (fun sd => all_cells is_nan (amp sd))
       (@get demo_world (set__edge_channels_to_remove 2 demo_dynspec) "I") = Ok true.
Proof.
  split; [reflexivity|].
  split; [by rewrite (edge_setter_spec _ 4%Z)|].
  split; [by rewrite (edge_setter_spec _ 4%Z)|].
  split; vm_compute; reflexivity.
Qed.

(** ** Rebinning *)


Lemma rebin_time_shape (g : binning) (data out : Array3) :
  rebin_time g data = Ok out ->
  shape3 out = (Z.to_nat (nout g), nfreqs data, npols data).
Proof.
  unfold rebin_time. destruct (_ || _); [discriminate|]. by intros [= <-].
Qed.



Lemma rebin_axis_length (g : binning) (n_i : nat) (axis out : list Q) :
  rebin_axis g n_i axis = Ok out -> length out = Z.to_nat (nout g).
Proof.
  unfold rebin_axis. destruct (_ || _); [discriminate|].
  intros [= <-]. apply tabulate_length.
Qed.

(** Without a configured width, neither axis is touched. *)
Lemma rebin_none_identity (self : Dynspec) (data : Array3) (times freqs : list Q)
    (dt df : Q) :
  _rebin_dt self = None -> _rebin_df self = None ->
  _rebin self data times freqs dt df = Ok (data, times, freqs).
Proof. intros Ht Hf. unfold _rebin. by rewrite Ht, Hf. Qed.

(** The two worked cases: a hundred spectra averaged over 10 native
    steps give 10 bins and leave nothing over; over 33 native steps they
    give 3 bins and leave one spectrum over. *)
Lemma rebin_hundred_examples :
  result_map (fun r => (shape3 r.1.1, length r.1.2))
    (_rebin (demo_rebin 10) demo_ramp demo_ramp_times [0%Q] (dt demo_lane_B)
       (df demo_lane_B))
  = Ok ((10, 1, 1), 10)
  /\ rebin_geometry 100 (10 * dt demo_lane_B) (dt demo_lane_B)
     = Ok (MkBinning 10 10 0 10)
  /\ result_map (fun r => (shape3 r.1.1, length r.1.2))
       (_rebin (demo_rebin 33) demo_ramp demo_ramp_times [0%Q] (dt demo_lane_B)
          (df demo_lane_B))
     = Ok ((3, 1, 1), 3)
  /\ rebin_geometry 100 (33 * dt demo_lane_B) (dt demo_lane_B)
     = Ok (MkBinning 33 3 1 33).
Proof. repeat split; vm_compute; reflexivity. Qed.

(** C6, evaluated on the code. A hundred spectra are averaged over a
    width of 30.5 native steps, that is 30 whole steps. The stage makes
    floor(100/30) = 3 bins, but what it leaves over is 100 mod 3 = 1
    spectrum, not the remainder 100 - 3 * 30 = 10: each bin averages 33
    spectra, so the bins of the ramp average to 16, 49 and 82 where bins
    of 30 spectra would give 14.5, 44.5 and 74.5, and the averaged time
    axis steps by 33 native steps. A width larger than the series raises
    instead of giving zero bins. *)
Theorem rebin_leftover_is_modulo_bin_count :
  rebin_geometry 100 ((61 # 2) * dt demo_lane_B) (dt demo_lane_B)
  = Ok (MkBinning 30 3 1 33)
  /\ result_map
       (fun r => (shape3 r.1.1, map (map (map fl_red)) (to_lists r.1.1),
                  map (fun t => Qred (t / dt demo_lane_B)) r.1.2))
       (_rebin (demo_rebin (61 # 2)) demo_ramp demo_ramp_times [0%Q] (dt demo_lane_B)
          (df demo_lane_B))
     = Ok ((3, 1, 1), [[[Fin 16]]; [[Fin 49]]; [[Fin 82]]], [16; 49; 82]%Q)
  /\ map (fun b => fl_red (nanmean (tabulate 30 (fun j => cell demo_ramp (b * 30 + j) 0 0))))
       [0; 1; 2]
     = [Fin (29 # 2); Fin (89 # 2); Fin (149 # 2)]
  /\ result_map (fun r => shape3 r.1.1)
       (_rebin (demo_rebin 101) demo_ramp demo_ramp_times [0%Q] (dt demo_lane_B)
          (df demo_lane_B))
     = Raise ZeroDivisionError.
Proof. repeat split; vm_compute; reflexivity. Qed.

(** ** Selection in get *)

Lemma argmin_from_bound (l : list Q) :
  forall best besti i, besti < i -> argmin_from best besti i l < i + length l.
Proof.
  induction l as [|d l IH]; intros best besti i Hi; cbn; [lia|].
  destruct (Qle_bool best d).
  - specialize (IH best besti (S i)). lia.
  - specialize (IH d i (S i)). lia.
Qed.

Lemma argmin_bound (l : list Q) (i : nat) : argmin l = Ok i -> i < length l.
Proof.
  destruct l as [|d l]; [discriminate|]. cbn. intros [= <-].
  pose proof (argmin_from_bound l d 0 1). lia.
Qed.

Lemma nearest_index_bound (axis : list Q) (x : Q) (i : nat) :
  nearest_index axis x = Ok i -> i < length axis.
Proof.
  unfold nearest_index. intros Hi. apply argmin_bound in Hi.
  by rewrite length_map in Hi.
Qed.

(** A slice never reaches past the axis. *)
Lemma py_slice_bounds (start stop : option Z) (len : nat) :
  (py_slice start stop len).1 + (py_slice start stop len).2 <= len.
Proof.
  unfold py_slice, slice_bound. cbn [fst snd].
  destruct start as [s|], stop as [e|]; bool_cases.
Qed.

Lemma slice_list_length {A} (start stop : option Z) (l : list A) :
  length (slice_list start stop l) = (py_slice start stop (length l)).2.
Proof.
  unfold slice_list. pose proof (py_slice_bounds start stop (length l)).
  destruct (py_slice start stop (length l)) as [off len]. cbn [fst snd] in *.
  rewrite length_take, length_drop. lia.
Qed.

(** The length selected by [lo:hi] when both bounds lie on the axis. *)
Lemma py_slice_inside (lo hi : Z) (len : nat) :
  (0 <= lo <= Z.of_nat len)%Z -> (0 <= hi <= Z.of_nat len)%Z ->
  py_slice (Some lo) (Some hi) len = (Z.to_nat lo, Z.to_nat (hi - lo)).
Proof.
  intros Hlo Hhi. unfold py_slice, slice_bound.
  destruct (Z.ltb_spec lo 0); [lia|]. destruct (Z.ltb_spec hi 0); [lia|].
  by rewrite !Z.min_l by lia.
Qed.

Lemma get_stokes_loop_shape (d : EJones) (cs : list ascii) :
  forall (acc : option Array3) (out : Array3),
    get_stokes_loop d cs acc = Ok (Some out) ->
    (forall a, acc = Some a -> ntimes a = e_ntimes d /\ nfreqs a = e_nfreqs d) ->
    ntimes out = e_ntimes d /\ nfreqs out = e_nfreqs d.
Proof.
  induction cs as [|c cs IH]; intros acc out Hrun Hacc.
  - cbn in Hrun. injection Hrun as ->. by apply Hacc.
  - cbn [get_stokes_loop] in Hrun.
    destruct (stokes_plane d c) as [plane|]; [|discriminate].
    cbn [mbind result_bind] in Hrun.
    eapply IH; [exact Hrun|].
    intros a [= <-]. destruct acc as [a0|]; [|done].
    cbn. by apply Hacc.
Qed.

Lemma get_stokes_shape (d : EJones) (stokes : string) (out : Array3) :
  get_stokes d stokes = Ok (Some out) ->
  ntimes out = e_ntimes d /\ nfreqs out = e_nfreqs d.
Proof.
  intros Hrun. eapply get_stokes_loop_shape; [exact Hrun|]. discriminate.
Qed.

(** What [get] has computed when a lane is kept. *)
Lemma get_select_inv (self : Dynspec) (stokes : string) (li : Lane) (sel : selection) :
  get_select self stokes li = Ok (Some sel) ->
  exists beam_start beam_stop cube tr fr tmin_idx tmax_idx fmin_idx fmax_idx,
    beam_idx li !! _beam self = Some (beam_start, beam_stop)
    /\ get_stokes (data li) stokes = Ok (Some cube)
    /\ time_range self = Ok tr
    /\ freq_range self = Ok fr
    /\ nearest_index (time_unix li) tr.1 = Ok tmin_idx
    /\ nearest_index (time_unix li) tr.2 = Ok tmax_idx
    /\ nearest_index
         (slice_list (Some beam_start) (Some beam_stop) (frequency_hz li)) fr.1
       = Ok fmin_idx
    /\ nearest_index
         (slice_list (Some beam_start) (Some beam_stop) (frequency_hz li)) fr.2
       = Ok fmax_idx
    /\ fmin_idx <> fmax_idx
    /\ n_channels li <> 0%Z
    /\ sel_fmin_idx sel = (Z.of_nat fmin_idx / n_channels li * n_channels li)%Z
    /\ sel_fmax_idx sel = ((Z.of_nat fmax_idx / n_channels li + 1) * n_channels li)%Z
    /\ sel_data sel
       = slice_freq (Some (sel_fmin_idx sel)) (Some (sel_fmax_idx sel))
           (slice_time (Some (Z.of_nat tmin_idx)) (Some (Z.of_nat tmax_idx))
              (slice_freq (Some beam_start) (Some beam_stop) cube))
    /\ sel_freqs sel
       = slice_list (Some (sel_fmin_idx sel)) (Some (sel_fmax_idx sel))
           (slice_list (Some beam_start) (Some beam_stop) (frequency_hz li))
    /\ sel_times sel
       = slice_list (Some (Z.of_nat tmin_idx)) (Some (Z.of_nat tmax_idx)) (time_unix li).
Proof.
  unfold get_select.
  destruct (beam_idx li !! _beam self) as [[beam_start beam_stop]|] eqn:Hbeam;
    [|discriminate].
  destruct (get_stokes (data li) stokes) as [cube|] eqn:Hcube; [|discriminate].
  cbn [mbind result_bind].
  destruct (time_range self) as [tr|] eqn:Htr; [|discriminate]. cbn [mbind result_bind].
  destruct (nearest_index (time_unix li) tr.1) as [tmin_idx|] eqn:Htmin; [|discriminate].
  cbn [mbind result_bind].
  destruct (nearest_index (time_unix li) tr.2) as [tmax_idx|] eqn:Htmax; [|discriminate].
  cbn [mbind result_bind].
  destruct (freq_range self) as [fr|] eqn:Hfr; [|discriminate]. cbn [mbind result_bind].
  destruct (nearest_index _ fr.1) as [fmin_idx|] eqn:Hfmin; [|discriminate].
  cbn [mbind result_bind].
  destruct (nearest_index _ fr.2) as [fmax_idx|] eqn:Hfmax; [|discriminate].
  cbn [mbind result_bind].
  destruct (Nat.eqb_spec fmin_idx fmax_idx); [discriminate|].
  destruct (Z.eqb_spec (n_channels li) 0); [discriminate|].
  destruct cube as [cube|]; [|discriminate].
  intros [= <-]. cbn [sel_fmin_idx sel_fmax_idx sel_data sel_freqs sel_times].
  exists beam_start, beam_stop, cube, tr, fr, tmin_idx, tmax_idx, fmin_idx, fmax_idx.
  repeat split; done.
Qed.

Lemma slice_freq_nfreqs (start stop : option Z) (a : Array3) :
  nfreqs (slice_freq start stop a) = (py_slice start stop (nfreqs a)).2.
Proof. unfold slice_freq. by destruct (py_slice start stop (nfreqs a)). Qed.

Lemma slice_time_nfreqs (start stop : option Z) (a : Array3) :
  nfreqs (slice_time start stop a) = nfreqs a.
Proof. unfold slice_time. by destruct (py_slice start stop (ntimes a)). Qed.

(** Flooring to a multiple of [n], and the next multiple above. *)
Lemma snap_bounds (n x : Z) :
  (0 < n)%Z -> (0 <= x)%Z ->
  (0 <= x / n * n <= x)%Z
  /\ (x < x / n * n + n)%Z
  /\ (x < (x / n + 1) * n <= x + n)%Z.
Proof.
  intros Hn Hx.
  pose proof (Z.div_mod x n ltac:(lia)) as Hdm.
  pose proof (Z.mod_pos_bound x n Hn) as Hmod.
  pose proof (Z.div_pos x n Hx Hn) as Hq.
  nia.
Qed.

(** Snapping on a well-formed lane. *)
Lemma get_select_snapped (self : Dynspec) (stokes : string) (li : Lane)
    (sel : selection) :
  lane_wf li ->
  get_select self stokes li = Ok (Some sel) ->
  let n := n_channels li in
  exists (beam_start beam_stop : Z) (fr : Q * Q) (fmin_idx fmax_idx k : nat),
    beam_idx li !! _beam self = Some (beam_start, beam_stop)
    /\ freq_range self = Ok fr
    /\ nearest_index
         (slice_list (Some beam_start) (Some beam_stop) (frequency_hz li)) fr.1
       = Ok fmin_idx
    /\ nearest_index
         (slice_list (Some beam_start) (Some beam_stop) (frequency_hz li)) fr.2
       = Ok fmax_idx
    /\ sel_fmin_idx sel = (Z.of_nat fmin_idx / n * n)%Z
    /\ (sel_fmin_idx sel <= Z.of_nat fmin_idx < sel_fmin_idx sel + n)%Z
    /\ sel_fmax_idx sel = ((Z.of_nat fmax_idx / n + 1) * n)%Z
    /\ (Z.of_nat fmax_idx < sel_fmax_idx sel <= Z.of_nat fmax_idx + n)%Z
    /\ (beam_start mod n = 0)%Z
    /\ (sel_fmin_idx sel mod n = 0)%Z
    /\ (sel_fmax_idx sel mod n = 0)%Z
    /\ nfreqs (sel_data sel) = Z.to_nat (sel_fmax_idx sel - sel_fmin_idx sel)
    /\ nfreqs (sel_data sel) = (k * Z.to_nat n)%nat
    /\ length (sel_freqs sel) = (k * Z.to_nat n)%nat.
Proof.
  intros [Hpos (nsb & Hcube & Haxis & Hbeams)] Hsel n.
  apply get_select_inv in Hsel
    as (beam_start & beam_stop & cube & tr & fr & tmin_idx & tmax_idx & fmin_idx
        & fmax_idx & Hbeam & Hstokes & _ & Hfr & _ & _ & Hfmin & Hfmax & _ & _
        & Hlo & Hhi & Hdata & Hfreqs & _).
  subst n. set (n := n_channels li) in *.
  destruct (Hbeams _ _ _ Hbeam) as (i & j & Hi & Hj & Hstart & Hstop).
  apply get_stokes_shape in Hstokes as [_ Hnf].
  set (beam_freqs := slice_list (Some beam_start) (Some beam_stop) (frequency_hz li)) in *.
  (* the beam range, on the axis of the lane *)
  assert (HN : Z.of_nat (nsb * Z.to_nat n) = (Z.of_nat nsb * n)%Z) by lia.
  assert (Hrange : py_slice (Some beam_start) (Some beam_stop) (nsb * Z.to_nat n)
                   = (Z.to_nat beam_start, Z.to_nat (beam_stop - beam_start))).
  { apply py_slice_inside; rewrite HN; subst beam_start beam_stop; nia. }
  assert (Hlen : length beam_freqs = Z.to_nat (beam_stop - beam_start)).
  { unfold beam_freqs. by rewrite slice_list_length, Haxis, Hrange. }
  apply nearest_index_bound in Hfmin as Hfmin_lt.
  apply nearest_index_bound in Hfmax as Hfmax_lt.
  rewrite Hlen in Hfmin_lt, Hfmax_lt.
  (* the snapped bounds *)
  destruct (snap_bounds n (Z.of_nat fmin_idx) Hpos ltac:(lia)) as (Ha1 & Ha2 & _).
  destruct (snap_bounds n (Z.of_nat fmax_idx) Hpos ltac:(lia)) as (_ & _ & Hb).
  set (a := (Z.of_nat fmin_idx / n)%Z) in *.
  set (b := (Z.of_nat fmax_idx / n)%Z) in *.
  assert (Hb_top : ((b + 1) * n <= beam_stop - beam_start)%Z).
  { subst beam_start beam_stop.
    assert (Z.of_nat fmax_idx < (Z.of_nat j + 1 - Z.of_nat i) * n)%Z by lia.
    assert (b < Z.of_nat j + 1 - Z.of_nat i)%Z
      by (apply Z.div_lt_upper_bound; lia).
    nia. }
  assert (Hinner : py_slice (Some (sel_fmin_idx sel)) (Some (sel_fmax_idx sel))
                     (Z.to_nat (beam_stop - beam_start))
                   = (Z.to_nat (sel_fmin_idx sel),
                      Z.to_nat (sel_fmax_idx sel - sel_fmin_idx sel))).
  { apply py_slice_inside; rewrite ?Hlo, ?Hhi; lia. }
  assert (Hextent : nfreqs (sel_data sel)
                    = Z.to_nat (sel_fmax_idx sel - sel_fmin_idx sel)).
  { rewrite Hdata, slice_freq_nfreqs, slice_time_nfreqs, slice_freq_nfreqs.
    rewrite Hnf, Hcube, Hrange. cbn [snd]. by rewrite Hinner. }
  assert (Hk : Z.to_nat (sel_fmax_idx sel - sel_fmin_idx sel)
               = (Z.to_nat (b + 1 - a) * Z.to_nat n)%nat).
  { rewrite Hlo, Hhi. replace ((b + 1) * n - a * n)%Z with ((b + 1 - a) * n)%Z by lia.
    destruct (Z.le_gt_cases 0 (b + 1 - a)).
    - rewrite Z2Nat.inj_mul by lia. done.
    - rewrite (Z2Nat.nonpos (b + 1 - a)) by lia. rewrite Z2Nat.nonpos by nia. done. }
  exists beam_start, beam_stop, fr, fmin_idx, fmax_idx, (Z.to_nat (b + 1 - a)).
  split; [done|]. split; [done|]. split; [done|]. split; [done|].
  split; [done|]. split; [lia|]. split; [done|]. split; [lia|].
  split; [subst beam_start; apply Z.mod_mul; lia|].
  split; [rewrite Hlo; apply Z.mod_mul; lia|].
  split; [rewrite Hhi; apply Z.mod_mul; lia|].
  split; [done|]. split; [by rewrite Hextent|].
  by rewrite Hfreqs, slice_list_length, Hlen, Hinner.
Qed.

(** C7. For every lane built by [_Lane] that [get] processes, the
    frequency bounds found by nearest-index search are snapped outward
    before slicing: the start becomes the largest multiple of the channel
    count not above it, the stop the smallest multiple above it. The beam
    range itself starts on a subband edge, and the frequency extent of the
    sliced data, like the frequency axis that goes with it, is a whole
    number of subbands. *)
Theorem get_select_whole_subbands `{World} (path : string) (self : Dynspec)
    (stokes : string) (li : Lane) (sel : selection) :
  _Lane path = Ok li ->
  get_select self stokes li = Ok (Some sel) ->
  let n := n_channels li in
  exists (beam_start beam_stop : Z) (fr : Q * Q) (fmin_idx fmax_idx k : nat),
    beam_idx li !! _beam self = Some (beam_start, beam_stop)
    /\ freq_range self = Ok fr
    /\ nearest_index
         (slice_list (Some beam_start) (Some beam_stop) (frequency_hz li)) fr.1
       = Ok fmin_idx
    /\ nearest_index
         (slice_list (Some beam_start) (Some beam_stop) (frequency_hz li)) fr.2
       = Ok fmax_idx
    /\ sel_fmin_idx sel = (Z.of_nat fmin_idx / n * n)%Z
    /\ (sel_fmin_idx sel <= Z.of_nat fmin_idx < sel_fmin_idx sel + n)%Z
    /\ sel_fmax_idx sel = ((Z.of_nat fmax_idx / n + 1) * n)%Z
    /\ (Z.of_nat fmax_idx < sel_fmax_idx sel <= Z.of_nat fmax_idx + n)%Z
    /\ (beam_start mod n = 0)%Z
    /\ (sel_fmin_idx sel mod n = 0)%Z
    /\ (sel_fmax_idx sel mod n = 0)%Z
    /\ nfreqs (sel_data sel) = Z.to_nat (sel_fmax_idx sel - sel_fmin_idx sel)
    /\ nfreqs (sel_data sel) = (k * Z.to_nat n)%nat
    /\ length (sel_freqs sel) = (k * Z.to_nat n)%nat.
Proof.
  intros Hlane. apply get_select_snapped. by apply (Lane_wf path).
Qed.

Lemma get_select_whole_subbands_witness :
  exists sel k,
    @_Lane demo_world "/data/OBS-B_1.spectra" = Ok demo_lane_B
    /\ get_select demo_band "I" demo_lane_B = Ok (Some sel)
    /\ sel_fmin_idx sel = 0%Z
    /\ sel_fmax_idx sel = 8%Z
    /\ nfreqs (sel_data sel) = k * 4.
Proof.
  assert (Hlane : @_Lane demo_world "/data/OBS-B_1.spectra" = Ok demo_lane_B)
    by (vm_compute; reflexivity).
  eexists.
  destruct (@get_select_whole_subbands demo_world "/data/OBS-B_1.spectra" demo_band "I"
              demo_lane_B _ Hlane eq_refl)
    as (bs & be & fr & i & j & k & _ & _ & _ & _ & _ & _ & _ & _ & _ & _ & _ & _ & Hk & _).
  exists k. split; [exact Hlane|].
  split; [reflexivity|]. split; [reflexivity|]. split; [reflexivity|].
  exact Hk.
Defined.

(** The lanes of a constructed observation are all results of [_Lane],
    hence well formed. *)
Lemma Dynspec_init_lanes_wf `{World} (l : lanefiles_arg) (self : Dynspec) :
  Dynspec_init l = Ok self -> Forall lane_wf (lanes self).
Proof.
  intros Hinit. apply Dynspec_init_inv in Hinit as [Hok ->].
  apply lanefiles_loop_ok in Hok. revert Hok.
  generalize (lanefiles_loop (map abspath (listed l)) []).1 (map abspath (listed l)).
  intros new files Hok.
  induction Hok as [|li path new' rest Hli _ IH]; constructor; [|done].
  by apply (Lane_wf (abspath path)).
Qed.

(** ** The loop of get *)







(** With beam 1 selected, the first lane of the two-beam observation is
    passed over and the product is that of the second lane alone. *)
Lemma get_two_beams_example :
  map (fun li => beam_idx li !! _beam demo_two_beams) (lanes demo_two_beams)
  = [None; Some (0%Z, 8%Z)]
  /\ result_map (fun sd => shape3 (amp sd)) (@get demo_world demo_two_beams "I")
     = Ok (3, 8, 1).
Proof. split; vm_compute; reflexivity. Qed.

(** * Further properties of the lane reader *)

(** ** Channel-halves reorder *)

(** Swapping the two halves of a subband of [2 * half] channels sends
    channel [c] to [(c + half) mod (2 * half)]. *)
Lemma half_swap_index (half c : nat) :
  0 < half -> c < 2 * half ->
  (1 - c / half) * half + c mod half = (c + half) mod (2 * half).
Proof.
  intros Hh Hc.
  pose proof (Nat.div_mod_eq c half) as Hdm.
  pose proof (Nat.mod_upper_bound c half ltac:(lia)) as Hm.
  assert (Hq : c / half < 2) by (apply Nat.Div0.div_lt_upper_bound; lia).
  destruct (c / half) as [|[|q]] eqn:Hdiv; [| |lia].
  - rewrite (Nat.mod_small (c + half)) by lia. lia.
  - apply (Nat.mod_unique _ _ 1); lia.
Qed.

Lemma half_swap_involutive (half c : nat) :
  0 < half -> c < 2 * half ->
  ((c + half) mod (2 * half) + half) mod (2 * half) = c.
Proof.
  intros Hh Hc. destruct (Nat.lt_ge_cases c half).
  - rewrite (Nat.mod_small (c + half)) by lia.
    symmetry. apply (Nat.mod_unique _ _ 1); lia.
  - assert (Hs : (c + half) mod (2 * half) = c - half)
      by (symmetry; apply (Nat.mod_unique _ _ 1); lia).
    rewrite Hs. rewrite Nat.mod_small by lia. lia.
Qed.

(** X1. [_to2d] refuses an odd channel count. With an even one it returns an
    array of [ntb * nffte] spectra of [nfb * n_channels] channels in which
    the two halves of every subband are exchanged: the output channel
    [(c + n_channels/2) mod n_channels] of subband [sb] at time
    [tb * nffte + s] is the input sample (tb, sb, s, c), so that no sample
    is lost and exchanging the halves twice restores the order. *)
Theorem to2d_half_swap {A} (ntb nfb : nat) (data : nat -> nat -> nat -> nat -> A)
    (nffte n_channels : Z) :
  (0 < nffte)%Z -> (0 < n_channels)%Z ->
  let ns := Z.to_nat nffte in
  let nch := Z.to_nat n_channels in
  let swap c := ((c + nch / 2) mod nch)%nat in
  ((n_channels mod 2 <> 0)%Z -> _to2d ntb nfb data nffte n_channels = Raise ValueError)
  /\ ((n_channels mod 2 = 0)%Z ->
      exists out,
        _to2d ntb nfb data nffte n_channels = Ok (ntb * ns, nfb * nch, out)
        /\ (forall t f, out t f = data (t / ns) (f / nch) (t mod ns) (swap (f mod nch)))
        /\ (forall tb sb s c, s < ns -> c < nch ->
              out (tb * ns + s) (sb * nch + swap c) = data tb sb s c)
        /\ (forall c, c < nch -> swap c < nch /\ swap (swap c) = c)).
Proof.
  intros Hns Hnch ns nch swap. unfold _to2d. split.
  - intros Hodd. destruct (Z.eqb_spec (n_channels mod 2) 0); [lia|done].
  - intros Heven. destruct (Z.eqb_spec (n_channels mod 2) 0); [|lia]. cbn [negb].
    fold ns nch.
    assert (Hk : nch = (2 * Z.to_nat (n_channels / 2))%nat).
    { unfold nch. pose proof (Z.div_mod n_channels 2 ltac:(lia)) as Hdm. lia. }
    assert (Hhalf : Z.to_nat (n_channels / 2) = (nch / 2)%nat).
    { rewrite Hk, (Nat.mul_comm 2), Nat.div_mul by done. done. }
    assert (Hsplit : nch = (2 * (nch / 2))%nat) by (rewrite <- Hhalf; exact Hk).
    assert (Hpos : (0 < nch / 2)%nat) by (unfold nch in *; lia).
    assert (Hswap : forall c, c < nch ->
              ((1 - c / (nch / 2)) * (nch / 2) + c mod (nch / 2))%nat = swap c).
    { intros c Hc. unfold swap.
      pose proof (half_swap_index (nch / 2) c Hpos ltac:(lia)) as Hi.
      rewrite <- Hsplit in Hi. exact Hi. }
    assert (Hinv : forall c, c < nch -> swap c < nch /\ swap (swap c) = c).
    { intros c Hc. split; [apply Nat.mod_upper_bound; lia|].
      unfold swap.
      pose proof (half_swap_involutive (nch / 2) c Hpos ltac:(lia)) as Hi.
      rewrite <- Hsplit in Hi. exact Hi. }
    eexists. split; [reflexivity|]. rewrite Hhalf.
    assert (Hcell : forall t f,
              data (t / ns) (f / nch) (t mod ns)
                ((1 - f mod nch / (nch / 2)) * (nch / 2) + (f mod nch) mod (nch / 2))%nat
              = data (t / ns) (f / nch) (t mod ns) (swap (f mod nch))).
    { intros t f. f_equal. apply Hswap. apply Nat.mod_upper_bound. lia. }
    split; [exact Hcell|]. split; [|exact Hinv].
    intros tb sb s c Hs Hc. rewrite Hcell.
    destruct (Hinv c Hc) as [Hlt Hback].
    assert (Hns' : ns <> 0%nat) by (unfold ns; lia).
    assert (Hnch' : nch <> 0%nat) by lia.
    rewrite (Nat.add_comm (tb * ns)), Nat.div_add, Nat.Div0.mod_add by done.
    rewrite (Nat.add_comm (sb * nch)), Nat.div_add, Nat.Div0.mod_add by done.
    rewrite (Nat.div_small s), (Nat.mod_small s) by done.
    rewrite (Nat.div_small (swap c)), (Nat.mod_small (swap c)) by done.
    by rewrite Hback.
Qed.

Lemma to2d_half_swap_witness :
  exists out,
    _to2d 2 2 (fun tb sb s c => (tb, sb, s, c)) 2 4 = Ok (4, 8, out)
    /\ out 3 5 = (1, 1, 1, 3).
Proof.
  destruct (proj2 (to2d_half_swap 2 2 (fun tb sb s c => (tb, sb, s, c)) 2 4
                     ltac:(lia) ltac:(lia)) eq_refl)
    as (out & Hrun & Hcell & _).
  exists out. split; [exact Hrun|]. rewrite Hcell. reflexivity.
Defined.

(** ** Axes of a loaded lane *)










(** ** Beam ranges *)

Lemma where_eq_spec (beam_array : list Z) (b : Z) (i : nat) :
  i ∈ where_eq beam_array b <-> beam_array !! i = Some b.
Proof.
  unfold where_eq. rewrite list_elem_of_filter, elem_of_seq. split.
  - by intros [? _].
  - intros Hi. split; [done|]. apply lookup_lt_Some in Hi. lia.
Qed.

(** The first and last entries of an increasing enumeration bound every
    entry. *)
Lemma filter_seq_head (P : nat -> Prop) `{forall i, Decision (P i)} (n : nat) :
  forall a first,
    head (filter P (seq a n)) = Some first ->
    forall j, j ∈ filter P (seq a n) -> first <= j.
Proof.
  induction n as [|n IH]; intros a first Hhead j Hj; [by apply elem_of_nil in Hj|].
  cbn [seq] in *. rewrite filter_cons in *. destruct (decide (P a)).
  - cbn in Hhead. injection Hhead as <-.
    apply elem_of_cons in Hj as [->|Hj]; [done|].
    apply list_elem_of_filter in Hj as [_ Hj]. apply elem_of_seq in Hj. lia.
  - eauto.
Qed.

Lemma filter_seq_last (P : nat -> Prop) `{forall i, Decision (P i)} (n : nat) :
  forall a final,
    last (filter P (seq a n)) = Some final ->
    forall j, j ∈ filter P (seq a n) -> j <= final.
Proof.
  induction n as [|n IH]; intros a final Hlast j Hj; [by apply elem_of_nil in Hj|].
  rewrite seq_S, filter_app in *. cbn [filter] in *.
  rewrite filter_cons, filter_nil in *. destruct (decide (P (a + n))).
  - rewrite last_snoc in Hlast. injection Hlast as <-.
    apply elem_of_app in Hj as [Hj|Hj].
    + apply list_elem_of_filter in Hj as [_ Hj]. apply elem_of_seq in Hj. lia.
    + apply list_elem_of_singleton in Hj. lia.
  - rewrite app_nil_r in *. eauto.
Qed.

Lemma np_unique_elem (l : list Z) (b : Z) : b ∈ np_unique l <-> b ∈ l.
Proof.
  unfold np_unique. rewrite merge_sort_Permutation. apply elem_of_remove_dups.
Qed.

Lemma sort_beam_edges_run (beam_array : list Z) (n : Z) (bs : list Z) :
  forall acc : gmap Z (Z * Z),
    (forall b, b ∈ bs -> b ∈ beam_array) ->
    exists out,
      foldl (fun indices b =>
               ind ← indices;
               let b_idx := where_eq beam_array b in
               match head b_idx, last b_idx with
               | Some first, Some final =>
                   Ok (<[b := ((Z.of_nat first * n)%Z,
                               ((Z.of_nat final + 1) * n)%Z)]> ind)
               | _, _ => Raise IndexError
               end)
            (Ok acc) bs = Ok out
      /\ forall b,
           (b ∉ bs -> out !! b = acc !! b)
           /\ (b ∈ bs ->
               exists first final,
                 head (where_eq beam_array b) = Some first
                 /\ last (where_eq beam_array b) = Some final
                 /\ out !! b = Some ((Z.of_nat first * n)%Z,
                                     ((Z.of_nat final + 1) * n)%Z)).
Proof.
  induction bs as [|b0 bs IH]; intros acc Hin.
  - exists acc. split; [done|]. intros b. split; [done|].
    intros Hb. by apply elem_of_nil in Hb.
  - cbn [foldl mbind result_bind].
    assert (Hb0 : b0 ∈ beam_array) by (apply Hin; left).
    apply list_elem_of_lookup in Hb0 as [i0 Hi0].
    apply where_eq_spec in Hi0.
    destruct (where_eq beam_array b0) as [|first rest] eqn:Hwhere;
      [by apply elem_of_nil in Hi0|].
    destruct (last (first :: rest)) as [final|] eqn:Hlast;
      [|by apply last_None in Hlast].
    cbn [head].
    destruct (IH (<[b0 := ((Z.of_nat first * n)%Z, ((Z.of_nat final + 1) * n)%Z)]> acc))
      as (out & Hrun & Hout); [intros b Hb; apply Hin; by right|].
    exists out. split; [exact Hrun|].
    intros b. split.
    + intros Hb. apply not_elem_of_cons in Hb as [Hne Hb].
      rewrite (proj1 (Hout b) Hb). by rewrite lookup_insert_ne.
    + intros Hb. destruct (decide (b ∈ bs)) as [Hbs|Hbs]; [by apply Hout|].
      apply elem_of_cons in Hb as [->|Hb]; [|done].
      exists first, final. rewrite Hwhere. split; [done|]. split; [done|].
      rewrite (proj1 (Hout b0) Hbs). by rewrite lookup_insert_eq.
Qed.

(** X4. [_sort_beam_edges] never raises. The dictionary it returns has an
    entry for exactly the beams present in the array; the entry of beam
    [b] runs from the first subband recorded with [b] to the last one,
    in units of [n_channels], whatever lies between them. *)
Theorem sort_beam_edges_lookup (beam_array : list Z) (n_channels : Z) :
  exists out,
    _sort_beam_edges beam_array n_channels = Ok out
    /\ forall b,
         (b ∉ beam_array -> out !! b = None)
         /\ (b ∈ beam_array ->
             exists first final : nat,
               out !! b = Some ((Z.of_nat first * n_channels)%Z,
                                ((Z.of_nat final + 1) * n_channels)%Z)
               /\ beam_array !! first = Some b
               /\ beam_array !! final = Some b
               /\ forall j, beam_array !! j = Some b -> first <= j <= final).
Proof.
  unfold _sort_beam_edges.
  destruct (sort_beam_edges_run beam_array n_channels (np_unique beam_array) ∅)
    as (out & Hrun & Hout); [intros b; apply np_unique_elem|].
  exists out. split; [exact Hrun|]. intros b. split.
  - intros Hb. rewrite (proj1 (Hout b)); [apply lookup_empty|].
    by rewrite np_unique_elem.
  - intros Hb. destruct (proj2 (Hout b)) as (first & final & Hhead & Hlast & Hlook);
      [by rewrite np_unique_elem|].
    exists first, final. split; [exact Hlook|].
    split; [apply where_eq_spec; by apply head_Some_elem_of|].
    split; [apply where_eq_spec; by apply last_Some_elem_of|].
    intros j Hj. apply where_eq_spec in Hj. unfold where_eq in *. split.
    + by eapply filter_seq_head.
    + by eapply filter_seq_last.
Qed.

(** ** The lane constructor *)







(** * Further properties of the observation *)

(** ** Edge channels *)

(** X6. Whatever is assigned to [edge_channels_to_remove], the stored count
    is never negative and never more than half the channels of a subband,
    no other attribute changes, and a warning is logged exactly when the
    stored count is not the assigned value. *)
Theorem edge_setter_stores_valid_count (n : pyval) (self self' : Dynspec)
    (log : list log_record) (nch : Z) :
  nchan self = Ok nch ->
  (0 <= nch)%Z ->
  edge_channels_to_remove_setter n self = Ok (self', log) ->
  (0 <= _edge_channels_to_remove self')%Z
  /\ (2 * _edge_channels_to_remove self' <= nch)%Z
  /\ self' = set__edge_channels_to_remove (_edge_channels_to_remove self') self
  /\ (LogWarning ∈ log <-> n <> PyInt (_edge_channels_to_remove self'))
  /\ (LogInfo ∈ log <-> (0 < _edge_channels_to_remove self')%Z).
Proof.
  intros Hnch Hpos. destruct n as [n|].
  - rewrite (edge_setter_spec _ _ _ Hnch).
    destruct (Z.ltb_spec nch (n * 2)); cbn [orb].
    + intros [= <- <-]. cbn. repeat split; try lia; try done.
      * intros _ [= ->]. lia.
      * intros _. apply list_elem_of_singleton. done.
      * intros Hin. apply list_elem_of_singleton in Hin. discriminate.
    + destruct (Z.ltb_spec n 0).
      * intros [= <- <-]. cbn. repeat split; try lia; try done.
        -- intros _ [= ->]. lia.
        -- intros _. by apply list_elem_of_singleton.
        -- intros Hin. apply list_elem_of_singleton in Hin. discriminate.
      * intros [= <- <-]. cbn. repeat split; try lia; try done.
        -- destruct (0 <? n)%Z; intros Hin;
             [apply list_elem_of_singleton in Hin; discriminate
             | by apply elem_of_nil in Hin].
        -- destruct (Z.ltb_spec 0 n); [lia|]. intros Hin. by apply elem_of_nil in Hin.
        -- destruct (Z.ltb_spec 0 n); [|lia]. intros _. by apply list_elem_of_singleton.
  - unfold edge_channels_to_remove_setter. cbn. intros [= <- <-]. cbn.
    repeat split; try lia; try done.
    + intros _. by apply list_elem_of_singleton.
    + intros Hin. apply list_elem_of_singleton in Hin. discriminate.
Qed.

Lemma edge_setter_stores_valid_count_witness :
  exists self' log,
    edge_channels_to_remove_setter (PyInt 1) demo_dynspec = Ok (self', log)
    /\ _edge_channels_to_remove self' = 1%Z
    /\ (LogInfo ∈ log <-> (0 < _edge_channels_to_remove self')%Z).
Proof.
  eexists _, _. split; [reflexivity|]. split; [reflexivity|].
  destruct (edge_setter_stores_valid_count (PyInt 1) demo_dynspec _ _ 4%Z
              eq_refl ltac:(lia) eq_refl) as (_ & _ & _ & _ & Hinfo).
  exact Hinfo.
Defined.

(** X7. With a stored count [n > 0] on whole subbands, the flagging stage
    keeps the shape, turns into not-a-number exactly the first [n] and
    the last [n] channels of every subband (at every time and
    polarization) and leaves the other samples as they are; flagging a
    second time changes nothing more. When the frequency extent is not a
    whole number of subbands of the first lane, the stage raises. *)
Theorem remove_edge_channels_flags_edges (self : Dynspec) (data : Array3) (nch : Z) :
  nchan self = Ok nch ->
  (0 < nch)%Z ->
  (0 < _edge_channels_to_remove self)%Z ->
  let N := Z.to_nat nch in
  let n := Z.to_nat (_edge_channels_to_remove self) in
  ((nfreqs data mod N <> 0)%nat -> _remove_edge_channels self data = Raise ValueError)
  /\ ((nfreqs data mod N = 0)%nat ->
      exists out,
        _remove_edge_channels self data = Ok out
        /\ shape3 out = shape3 data
        /\ (forall t f p, (f mod N < n \/ N - n <= f mod N)%nat -> cell out t f p = NaN)
        /\ (forall t f p, (n <= f mod N < N - n)%nat -> cell out t f p = cell data t f p)
        /\ exists again,
             _remove_edge_channels self out = Ok again
             /\ forall t f p, cell again t f p = cell out t f p).
Proof.
  intros Hnch Hpos Hn N n.
  assert (HN : N <> 0%nat) by (unfold N; lia).
  split.
  - intros Hmod. unfold _remove_edge_channels. rewrite Z.gtb_ltb.
    destruct (Z.ltb_spec 0 (_edge_channels_to_remove self)); [|lia].
    rewrite Hnch. cbn [mbind result_bind].
    destruct (Z.leb_spec nch 0); [lia|]. fold N.
    destruct (Nat.eqb_spec (nfreqs data / N * N) (nfreqs data)) as [Heq|]; [|done].
    exfalso. apply Hmod. rewrite <- Heq. apply Nat.Div0.mod_mul.
  - intros Hmod.
    assert (Hfreqs : nfreqs data = (nfreqs data / N * N)%nat).
    { pose proof (Nat.div_mod_eq (nfreqs data) N). lia. }
    destruct (remove_edge_channels_spec self data nch (nfreqs data / N) Hnch Hpos Hn Hfreqs)
      as (out & Hrun & Hshape & Hcell).
    assert (Hfreqs' : nfreqs out = (nfreqs data / N * N)%nat).
    { injection Hshape as _ Hf _. by rewrite Hf. }
    destruct (remove_edge_channels_spec self out nch (nfreqs data / N) Hnch Hpos Hn Hfreqs')
      as (again & Hrun2 & _ & Hcell2).
    exists out. split; [done|]. split; [done|]. fold N n in Hcell, Hcell2.
    split; [|split].
    + intros t f p Hedge. rewrite Hcell. cbn zeta. bool_cases.
    + intros t f p Hin. rewrite Hcell. cbn zeta. bool_cases.
    + exists again. split; [done|]. intros t f p. rewrite Hcell2, Hcell. cbn zeta.
      by destruct (_ || _).
Qed.

Lemma remove_edge_channels_flags_edges_witness :
  exists out,
    _remove_edge_channels (set__edge_channels_to_remove 1 demo_dynspec) demo_spectrum
    = Ok out
    /\ cell out 0 4 0 = NaN
    /\ cell out 0 5 0 = Fin 6.
Proof.
  destruct (remove_edge_channels_flags_edges
              (set__edge_channels_to_remove 1 demo_dynspec) demo_spectrum 4%Z
              eq_refl ltac:(lia) ltac:(cbn; lia))
    as (_ & Hok).
  destruct (Hok eq_refl) as (out & Hrun & _ & Hedge & Hin & _).
  exists out. split; [exact Hrun|]. split.
  - apply Hedge. left. vm_compute. lia.
  - rewrite Hin by (vm_compute; lia). reflexivity.
Defined.

(** ** Dedispersion: shifted and masked samples *)

(** X8. Dedispersion treats every channel on its own. A channel delayed by
    [c > 0] samples gets, at time [t], the input sample of time [t + c]
    as long as that exists, and not-a-number on its last [c] samples (on
    all of them when [c] reaches the number of spectra). A channel with a
    negative delay [c] (a frequency above the reference) keeps at its
    first [-c] times the last [-c] input samples, wrapped around, and is
    not-a-number from time [-c] on. *)
Theorem dedisperse_shift_and_mask `{World} (self : Dynspec) (data : Array3)
    (freqs : list Q) (dt dm : Q) (fr : Q * Q) :
  _dispersion_measure self = Some dm ->
  nfreqs data = length freqs ->
  freq_range self = Ok fr ->
  (0 < dt)%Q ->
  exists out,
    _dedisperse self data freqs dt = Ok out
    /\ shape3 out = shape3 data
    /\ forall (i : nat) (c : Z) (t p : nat),
         cell_delays freqs fr.2 dm dt !! i = Some c ->
         t < ntimes data ->
         (0 < c ->
            ((Z.of_nat t + c < Z.of_nat (ntimes data))%Z ->
               cell out t i p = cell data (t + Z.to_nat c) i p)
            /\ ((Z.of_nat (ntimes data) <= Z.of_nat t + c)%Z -> cell out t i p = NaN))%Z
         /\ (- Z.of_nat (ntimes data) <= c < 0 ->
               ((Z.of_nat t < - c)%Z ->
                  cell out t i p = cell data (ntimes data - Z.to_nat (- c) + t) i p)
               /\ ((- c <= Z.of_nat t)%Z -> cell out t i p = NaN))%Z.
Proof.
  intros Hdm Hlen Hfr _. eexists. split; [by apply dedisperse_run|].
  split; [apply dedisperse_loop_cell|].
  intros i c t p Hi Ht. set (delays := cell_delays freqs fr.2 dm dt) in *.
  pose proof (lookup_lt_Some _ _ _ Hi) as Hlt.
  assert (Hcell := proj2 (dedisperse_loop_cell data delays) t i p).
  destruct (Nat.ltb_spec i (length delays)); [|lia].
  rewrite (list_lookup_total_correct _ _ _ Hi) in Hcell.
  split.
  - intros Hc. split.
    + intros Hin. by apply dedisperse_loop_positive_delay.
    + intros Hout. rewrite Hcell, in_slice_suffix by lia.
      destruct (Nat.leb_spec (ntimes data - Z.to_nat c) t); [done|lia].
  - intros [Hlo Hc]. rewrite in_slice_suffix_nonpos in Hcell by lia. split.
    + intros Hkeep. rewrite Hcell.
      destruct (Nat.leb_spec (Z.to_nat (- c)) t); [lia|].
      f_equal. unfold roll_src.
      assert (Hm : ((Z.of_nat t - - c) mod Z.of_nat (ntimes data)
                    = Z.of_nat t + c + Z.of_nat (ntimes data))%Z).
      { symmetry. apply (Z.mod_unique_pos _ _ (-1)); lia. }
      rewrite Hm. lia.
    + intros Hmask. rewrite Hcell.
      destruct (Nat.leb_spec (Z.to_nat (- c)) t); [done|lia].
Qed.

Lemma dedisperse_shift_and_mask_witness :
  exists out,
    @_dedisperse demo_world demo_dispersed_band demo_ramp [39000000%Q] (dt demo_lane_B)
    = Ok out
    /\ cell out 0 0 0 = cell demo_ramp (0 + Z.to_nat 3) 0 0
    /\ cell out 97 0 0 = NaN.
Proof.
  destruct (@dedisperse_shift_and_mask demo_world demo_dispersed_band demo_ramp
              [39000000%Q] (dt demo_lane_B) (5 # 1000)%Q (39000000%Q, 39100000%Q)
              eq_refl eq_refl eq_refl eq_refl)
    as (out & Hrun & _ & Hcell).
  assert (Hdelay : @cell_delays demo_world [39000000%Q] 39100000%Q (5 # 1000)%Q
                     (dt demo_lane_B) !! 0 = Some 3%Z) by (vm_compute; reflexivity).
  exists out. split; [exact Hrun|]. split.
  - destruct (Hcell 0 3%Z 0 0 Hdelay) as [Hpos _]; [unfold demo_ramp; cbn; lia|].
    destruct (Hpos ltac:(lia)) as [Hshift _]. apply Hshift. reflexivity.
  - destruct (Hcell 0 3%Z 97 0 Hdelay) as [Hpos _]; [unfold demo_ramp; cbn; lia|].
    destruct (Hpos ltac:(lia)) as [_ Hmask]. apply Hmask. discriminate.
Defined.

(** ** Rebinning: what an output bin holds *)





(** X10. For a positive native step, a width below one step, or above
    the extent of the axis, leaves no bin to fill: the stage raises
    [ZeroDivisionError], on the time axis and, when the time axis is not
    averaged, on the frequency axis. *)
Theorem rebin_width_out_of_range (self : Dynspec) (data : Array3) (times freqs : list Q)
    (dt df width : Q) :
  (_rebin_dt self = Some width -> (0 < dt)%Q ->
   (Qfloor (width / dt) = 0 \/ Z.of_nat (ntimes data) < Qfloor (width / dt))%Z ->
   _rebin self data times freqs dt df = Raise ZeroDivisionError)
  /\ (_rebin_dt self = None -> _rebin_df self = Some width -> (0 < df)%Q ->
      (Qfloor (width / df) = 0 \/ Z.of_nat (nfreqs data) < Qfloor (width / df))%Z ->
      _rebin self data times freqs dt df = Raise ZeroDivisionError).
Proof.
  assert (Hgeo : forall n w step,
            (Qfloor (w / step) = 0 \/ Z.of_nat n < Qfloor (w / step))%Z ->
            rebin_geometry n w step = Raise ZeroDivisionError).
  { intros n w step Hcase. unfold rebin_geometry.
    destruct (Z.eqb_spec (Qfloor (w / step)) 0); [done|].
    destruct Hcase as [|Hbig]; [done|].
    rewrite Z.div_small by lia. done. }
  split.
  - intros Hdt _ Hcase. unfold _rebin. by rewrite Hdt, Hgeo.
  - intros Hdt Hdf _ Hcase. unfold _rebin. rewrite Hdt, Hdf. cbn [mbind result_bind].
    by rewrite Hgeo.
Qed.

Lemma rebin_width_out_of_range_witness :
  _rebin (demo_rebin (1 # 2)) demo_ramp demo_ramp_times [0%Q] (dt demo_lane_B)
    (df demo_lane_B)
  = Raise ZeroDivisionError.
Proof.
  apply (proj1 (rebin_width_out_of_range (demo_rebin (1 # 2)) demo_ramp demo_ramp_times
                  [0%Q] (dt demo_lane_B) (df demo_lane_B) ((1 # 2) * dt demo_lane_B)%Q)).
  - reflexivity.
  - reflexivity.
  - left. vm_compute. reflexivity.
Defined.

(** ** Averages and flagged samples *)






(** ** Requests the Stokes extraction refuses *)




(** ** From the raw correlator samples to the Stokes parameters *)

Lemma to2d_run {A} (ntb nfb : nat) (data : nat -> nat -> nat -> nat -> A)
    (nffte n_channels : Z) :
  (0 < n_channels)%Z -> (n_channels mod 2 = 0)%Z ->
  let ns := Z.to_nat nffte in
  let nch := Z.to_nat n_channels in
  exists out,
    _to2d ntb nfb data nffte n_channels = Ok (ntb * ns, nfb * nch, out)
    /\ forall t f,
         out t f = data (t / ns) (f / nch) (t mod ns) ((f mod nch + nch / 2) mod nch).
Proof.
  intros Hnch Heven ns nch. unfold _to2d.
  destruct (Z.eqb_spec (n_channels mod 2) 0); [|lia]. cbn [negb].
  fold ns nch.
  assert (Hk : nch = (2 * Z.to_nat (n_channels / 2))%nat).
  { unfold nch. pose proof (Z.div_mod n_channels 2 ltac:(lia)) as Hdm. lia. }
  assert (Hhalf : Z.to_nat (n_channels / 2) = (nch / 2)%nat).
  { rewrite Hk, (Nat.mul_comm 2), Nat.div_mul by done. done. }
  assert (Hsplit : nch = (2 * (nch / 2))%nat) by (rewrite <- Hhalf; exact Hk).
  assert (Hpos : (0 < nch / 2)%nat) by (unfold nch in *; lia).
  eexists. split; [reflexivity|]. rewrite Hhalf.
  intros t f. f_equal.
  pose proof (half_swap_index (nch / 2) (f mod nch) Hpos) as Hi.
  rewrite <- Hsplit in Hi. apply Hi. apply Nat.mod_upper_bound. lia.
Qed.

(** The coherency cube of a loaded lane, sample by sample, in terms of
    the records of the file. *)
Lemma load_cube (l : string) (i : Z) (file : LaneFile) (li : Lane) :
  _load l i file = Ok li ->
  let ns := Z.to_nat (nffte file) in
  let nch := Z.to_nat (fftlen file) in
  e_ntimes (data li) = (n_blocks file * ns)%nat
  /\ e_nfreqs (data li) = (Z.to_nat (nbchan file) * nch)%nat
  /\ forall t f,
       jones (data li) t f
       = _to_ejones
           (fun j : nat * nat * nat * nat => rec_fft0 file j.1.1.1 j.1.1.2 j.1.2 j.2)
           (fun j : nat * nat * nat * nat => rec_fft1 file j.1.1.1 j.1.1.2 j.1.2 j.2)
           ((t / ns)%nat, (f / nch)%nat, (t mod ns)%nat,
            ((f mod nch + nch / 2) mod nch)%nat).
Proof.
  intros Hload ns nch.
  pose proof (load_inv _ _ _ _ Hload) as (Hpos & Heven & _).
  revert Hload. unfold _load.
  destruct (fftlen file <=? 0)%Z; [discriminate|].
  destruct (nffte file <? 0)%Z; [discriminate|].
  destruct (nbchan file <? 0)%Z; [discriminate|].
  cbn [orb].
  match goal with
  | |- context [_to2d ?a ?b ?c ?d ?e] =>
      destruct (to2d_run a b c d e Hpos Heven) as (out & -> & Hout)
  end.
  cbn [mbind result_bind].
  destruct (n_blocks file =? 0)%nat; [discriminate|].
  destruct (Zmin_list _); [|discriminate].
  destruct (Zmax_list _); [|discriminate].
  destruct (_sort_beam_edges _ _); [|discriminate].
  cbn [mbind result_bind]. intros [= <-].
  cbn [data e_ntimes e_nfreqs jones].
  split; [done|]. split; [done|]. intros t f. apply Hout.
Qed.

(** X13. Reading a file and asking for "IQUV" composes to the textbook
    formulas on the raw records. The sample at time [t] and channel [f]
    comes from record [t / nffte], spectrum [t mod nffte], subband
    [f / fftlen] and, the channel halves being exchanged, channel
    [(f mod fftlen + fftlen/2) mod fftlen]. There I = XX + YY and
    Q = XX - YY, U is twice the first cross term and V twice the second.
    The cross terms being combined into one complex number, a second cross
    term that is not a number makes U not a number as well as V, whereas a
    first cross term that is not a number leaves V untouched. *)
Theorem stokes_of_raw_samples (l : string) (i : Z) (file : LaneFile) (li : Lane)
    (t f : nat) :
  _load l i file = Ok li ->
  let ns := Z.to_nat (nffte file) in
  let nch := Z.to_nat (fftlen file) in
  let c := ((f mod nch + nch / 2) mod nch)%nat in
  let xx := rec_fft0 file (t / ns) (f / nch) (t mod ns) c 0 in
  let yy := rec_fft0 file (t / ns) (f / nch) (t mod ns) c 1 in
  let rexy := rec_fft1 file (t / ns) (f / nch) (t mod ns) c 0 in
  let imxy := rec_fft1 file (t / ns) (f / nch) (t mod ns) c 1 in
  exists out,
    get_stokes (data li) "IQUV" = Ok (Some out)
    /\ shape3 out = ((n_blocks file * ns)%nat, (Z.to_nat (nbchan file) * nch)%nat, 4)
    /\ cell out t f 0 = fadd xx yy
    /\ cell out t f 1 = fsub xx yy
    /\ (forall a b, rexy = Fin a -> imxy = Fin b ->
          fl_equiv (cell out t f 2) (Fin (2 * a)))
    /\ (forall b, imxy = Fin b -> fl_equiv (cell out t f 3) (Fin (2 * b)))
    /\ (rexy = NaN \/ imxy = NaN -> cell out t f 2 = NaN)
    /\ (imxy = NaN -> cell out t f 3 = NaN).
Proof.
  intros Hload ns nch c xx yy rexy imxy.
  destruct (load_cube _ _ _ _ Hload) as (Hnt & Hnf & Hcube).
  destruct (get_stokes_spec (data li) "IQUV") as (out & Hrun & Hshape & Hcell);
    [done..|].
  exists out. split; [exact Hrun|]. split.
  { rewrite Hshape, Hnt, Hnf. done. }
  rewrite (Hcell t f 0 "I"%char), (Hcell t f 1 "Q"%char),
    (Hcell t f 2 "U"%char), (Hcell t f 3 "V"%char) by done.
  rewrite Hcube. fold ns nch c.
  change (ascii_upper "I") with "I"%char. change (ascii_upper "Q") with "Q"%char.
  change (ascii_upper "U") with "U"%char. change (ascii_upper "V") with "V"%char.
  unfold stokes_formula; cbn -[Nat.div Nat.modulo]. fold xx yy rexy imxy.
  clearbody xx yy rexy imxy.
  split; [done|]. split; [done|]. repeat split.
  - intros a b -> ->. cbn. ring.
  - intros b ->. destruct rexy; cbn; ring.
  - intros [-> | ->]; [done|]. by destruct rexy.
  - intros ->. by destruct rexy.
Qed.

Lemma stokes_of_raw_samples_witness :
  exists out,
    get_stokes (data demo_lane_B) "IQUV" = Ok (Some out)
    /\ cell out 3 5 0 = Fin 2235
    /\ cell out 3 5 1 = Fin (-1).
Proof.
  destruct (stokes_of_raw_samples "/data/OBS-B_1.spectra" 1 (demo_file 0 202)
              demo_lane_B 3 5)
    as (out & Hrun & _ & HI & HQ & _).
  - vm_compute. reflexivity.
  - exists out. split; [exact Hrun|]. rewrite HI, HQ. split; reflexivity.
Defined.

(** * Further properties of the observation: attributes *)

(** ** Beam selection *)

Lemma np_unique_head_least (l : list Z) (b0 : Z) (rest : list Z) :
  np_unique l = b0 :: rest -> forall b, b ∈ l -> (b0 <= b)%Z.
Proof.
  intros Hu b Hb. apply np_unique_elem in Hb.
  assert (Hs : StronglySorted Z.le (np_unique l)).
  { apply Sorted_StronglySorted; [intros x y z; lia|].
    unfold np_unique. apply Sorted_merge_sort. apply _. }
  rewrite Hu in Hs, Hb. apply StronglySorted_inv in Hs as [_ Hall].
  apply elem_of_cons in Hb as [->|Hb]; [lia|].
  rewrite Forall_forall in Hall. by apply Hall.
Qed.

(** The available beams are the keys of the beam tables of the lanes. *)
Lemma beams_elem (self : Dynspec) (b : Z) :
  b ∈ beams self <-> exists li, li ∈ lanes self /\ is_Some (beam_idx li !! b).
Proof.
  unfold beams. rewrite np_unique_elem, list_elem_of_In, in_concat. split.
  - intros (keys & Hkeys & Hb). apply in_map_iff in Hkeys as (li & <- & Hli).
    exists li. split; [by apply list_elem_of_In|].
    apply list_elem_of_In, list_elem_of_fmap in Hb as ([k v] & -> & Hkv).
    apply elem_of_map_to_list in Hkv. by exists v.
  - intros (li & Hli & v & Hv). exists (map_to_list (beam_idx li)).*1. split.
    + apply in_map_iff. exists li. split; [done|]. by apply list_elem_of_In.
    + apply list_elem_of_In, list_elem_of_fmap. exists (b, v). split; [done|].
      by apply elem_of_map_to_list.
Qed.

Lemma beam_setter_inv (b : Z) (self self' : Dynspec) :
  beam_setter b self = Ok self' ->
  self' = set__beam (_beam self') self
  /\ _beam self' ∈ beams self
  /\ (b ∈ beams self -> _beam self' = b)
  /\ (b ∉ beams self -> forall b', b' ∈ beams self -> (_beam self' <= b')%Z).
Proof.
  unfold beam_setter. case_bool_decide as Hin.
  - intros [= <-]. cbn. done.
  - destruct (beams self) as [|b0 rest] eqn:Hb; [discriminate|].
    intros [= <-]. cbn. split; [done|]. split; [left|]. split; [done|].
    intros _ b' Hb'. unfold beams in Hb. rewrite <- Hb in Hb'.
    apply (proj1 (np_unique_elem _ _)) in Hb'.
    exact (np_unique_head_least _ _ _ Hb b' Hb').
Qed.

(** X14. Assigning [beam] raises [IndexError] when no lane lists any beam.
    Otherwise it completes, touches nothing but the selection, and leaves
    a beam that some lane holds: the requested one when it is available,
    and the smallest available one when it is not. *)
Theorem beam_setter_selects_available (b : Z) (self : Dynspec) :
  (beams self = [] -> beam_setter b self = Raise IndexError)
  /\ (beams self <> [] ->
      exists self',
        beam_setter b self = Ok self'
        /\ self' = set__beam (_beam self') self
        /\ (exists li, li ∈ lanes self' /\ is_Some (beam_idx li !! _beam self'))
        /\ (b ∈ beams self -> _beam self' = b)
        /\ (b ∉ beams self ->
            forall b', b' ∈ beams self -> (_beam self' <= b')%Z)).
Proof.
  split.
  - intros Hb. unfold beam_setter. rewrite Hb.
    rewrite bool_decide_eq_false_2 by (apply not_elem_of_nil). done.
  - intros Hb.
    assert (Hrun : exists self', beam_setter b self = Ok self').
    { unfold beam_setter. case_bool_decide; [by eexists|].
      destruct (beams self); [done|]. by eexists. }
    destruct Hrun as (self' & Hrun). exists self'. split; [exact Hrun|].
    destruct (beam_setter_inv _ _ _ Hrun) as (Hself & Hin & Hreq & Hleast).
    split; [exact Hself|]. split; [|by split].
    apply beams_elem.
    assert (Hsame : beams self' = beams self) by (by rewrite Hself).
    by rewrite Hsame.
Qed.

Lemma beam_setter_selects_available_witness :
  exists self',
    beam_setter 7 demo_two_beams = Ok self' /\ _beam self' = 0%Z.
Proof.
  destruct (proj2 (beam_setter_selects_available 7 demo_two_beams))
    as (self' & Hrun & _ & _ & _ & Hleast).
  - vm_compute. discriminate.
  - exists self'. split; [exact Hrun|].
    assert (H7 : 7%Z ∉ beams demo_two_beams)
      by (apply (bool_decide_unpack _); vm_compute; exact I).
    assert (H0 : 0%Z ∈ beams demo_two_beams)
      by (apply (bool_decide_unpack _); vm_compute; exact I).
    assert (Hin : _beam self' ∈ beams demo_two_beams).
    { revert Hrun. unfold beam_setter.
      rewrite bool_decide_eq_false_2 by exact H7.
      destruct (beams demo_two_beams) eqn:Hb; [discriminate|].
      intros [= <-]. cbn. left. }
    pose proof (Hleast H7 0%Z H0) as Hle.
    revert Hin. vm_compute (beams demo_two_beams). intros Hin.
    apply elem_of_cons in Hin as [Hin|Hin]; [exact Hin|].
    apply elem_of_cons in Hin as [Hin|Hin]; [lia|].
    by apply elem_of_nil in Hin.
Defined.

(** ** Bounds of the observation *)

Lemma aggregate_fold_raise (pick : Q -> Q -> Q) (g : Lane -> result Q)
    (rest : list Lane) (e : exn) :
  foldl (fun acc li => a ← acc; x ← g li; Ok (pick a x)) (Raise e) rest = Raise e.
Proof. induction rest as [|li rest IH]; [done|]. exact IH. Qed.

(** What [min] and [max] over the lanes return, for any selection [pick]
    that returns one of its arguments and is below both in an order [R]. *)
Lemma aggregate_extremum (pick : Q -> Q -> Q) (R : Q -> Q -> Prop)
    (g : Lane -> result Q) :
  (forall a x, R (pick a x) a) ->
  (forall a x, R (pick a x) x) ->
  (forall a x, (pick a x == a)%Q \/ (pick a x == x)%Q) ->
  (forall a b c, R a b -> R b c -> R a c) ->
  (forall a, R a a) ->
  forall (ls : list Lane) (m : Q),
    aggregate pick g ls = Ok m ->
    (forall li, li ∈ ls -> exists x, g li = Ok x /\ R m x)
    /\ (exists li x, li ∈ ls /\ g li = Ok x /\ (m == x)%Q).
Proof.
  intros Hl Hr Hsel Htrans Hrefl ls m. unfold aggregate.
  destruct ls as [|l0 rest]; [discriminate|].
  destruct (g l0) as [first|] eqn:Hfirst; [|discriminate]. cbn [mbind result_bind].
  assert (Hfold : forall rest acc m,
            foldl (fun acc li => a ← acc; x ← g li; Ok (pick a x)) (Ok acc) rest = Ok m ->
            R m acc
            /\ (forall li, li ∈ rest -> exists x, g li = Ok x /\ R m x)
            /\ ((m == acc)%Q \/ exists li x, li ∈ rest /\ g li = Ok x /\ (m == x)%Q)).
  { clear rest. induction rest as [|li rest IH]; intros acc m'.
    - cbn. intros [= <-]. split; [done|]. split; [|by left].
      intros li Hli. by apply elem_of_nil in Hli.
    - cbn [foldl mbind result_bind].
      destruct (g li) as [x|e] eqn:Hx; cbn [mbind result_bind];
        [|by rewrite aggregate_fold_raise].
      intros Hrun. destruct (IH _ _ Hrun) as (Hacc & Hall & Hsome).
      split; [by eapply Htrans|]. split.
      + intros li' Hli'. apply elem_of_cons in Hli' as [->|Hli'].
        * exists x. split; [done|]. by eapply Htrans.
        * by apply Hall.
      + destruct Hsome as [Heq|(li' & x' & Hli' & Hx' & Heq)].
        * destruct (Hsel acc x) as [Hp|Hp].
          -- left. by rewrite Heq.
          -- right. exists li, x. split; [left|]. split; [done|]. by rewrite Heq.
        * right. exists li', x'. split; [by right|]. done. }
  intros Hrun. destruct (Hfold _ _ _ Hrun) as (Hacc & Hall & Hsome). split.
  - intros li Hli. apply elem_of_cons in Hli as [->|Hli]; [by exists first|by apply Hall].
  - destruct Hsome as [Heq|(li' & x' & Hli' & Hx' & Heq)].
    + exists l0, first. split; [left|]. done.
    + exists li', x'. split; [by right|]. done.
Qed.

Lemma aggregate_total (pick : Q -> Q -> Q) (g : Lane -> Q) (ls : list Lane) :
  ls <> [] -> exists m, aggregate pick (fun li => Ok (g li)) ls = Ok m.
Proof.
  destruct ls as [|l0 rest]; [done|]. intros _. cbn.
  generalize (g l0). induction rest as [|li rest IH]; intros acc; [by eexists|].
  cbn. apply IH.
Qed.

Lemma aggregate_min_spec (g : Lane -> result Q) (ls : list Lane) (m : Q) :
  aggregate Qmin g ls = Ok m ->
  (forall li, li ∈ ls -> exists x, g li = Ok x /\ (m <= x)%Q)
  /\ (exists li x, li ∈ ls /\ g li = Ok x /\ (m == x)%Q).
Proof.
  apply (aggregate_extremum Qmin Qle g).
  - apply Q.le_min_l.
  - apply Q.le_min_r.
  - intros a x. destruct (Q.min_dec a x); [by left|by right].
  - intros a b c. apply Qle_trans.
  - apply Qle_refl.
Qed.

Lemma aggregate_max_spec (g : Lane -> result Q) (ls : list Lane) (m : Q) :
  aggregate Qmax g ls = Ok m ->
  (forall li, li ∈ ls -> exists x, g li = Ok x /\ (x <= m)%Q)
  /\ (exists li x, li ∈ ls /\ g li = Ok x /\ (m == x)%Q).
Proof.
  apply (aggregate_extremum Qmax (fun a b => (b <= a)%Q) g).
  - apply Q.le_max_l.
  - apply Q.le_max_r.
  - intros a x. destruct (Q.max_dec a x); [by left|by right].
  - intros a b c Hab Hbc. by apply Qle_trans with b.
  - apply Qle_refl.
Qed.

(** X15. The bounds of an observation. Without lanes, each of the four raises
    [ValueError]. With lanes, the frequency bounds always exist, the lower
    one lies below the lower bound of every lane and is the lower bound of
    one of them, and the upper one likewise from above; when the time
    bounds exist, every lane starts at or after the first and ends at or
    before the second, and each is reached by a lane. *)
Theorem observation_bounds (self : Dynspec) :
  (lanes self = [] ->
   tmin self = Raise ValueError /\ tmax self = Raise ValueError
   /\ fmin self = Raise ValueError /\ fmax self = Raise ValueError)
  /\ (lanes self <> [] ->
      exists lo hi,
        fmin self = Ok lo /\ fmax self = Ok hi
        /\ (forall li, li ∈ lanes self -> (lo <= _fmin li)%Q /\ (_fmax li <= hi)%Q)
        /\ (exists li, li ∈ lanes self /\ (lo == _fmin li)%Q)
        /\ (exists li, li ∈ lanes self /\ (hi == _fmax li)%Q))
  /\ (forall first final,
        tmin self = Ok first -> tmax self = Ok final ->
        (forall li, li ∈ lanes self ->
           exists t0 t1,
             head (time_unix li) = Some t0 /\ last (time_unix li) = Some t1
             /\ (first <= t0)%Q /\ (t1 <= final)%Q)
        /\ (exists li t,
              li ∈ lanes self /\ head (time_unix li) = Some t /\ (first == t)%Q)
        /\ (exists li t,
              li ∈ lanes self /\ last (time_unix li) = Some t /\ (final == t)%Q)).
Proof.
  pose proof aggregate_min_spec as Hmin. pose proof aggregate_max_spec as Hmax.
  split; [|split].
  - unfold tmin, tmax, fmin, fmax. by intros ->.
  - intros Hne.
    destruct (aggregate_total Qmin _fmin _ Hne) as (lo & Hlo).
    destruct (aggregate_total Qmax _fmax _ Hne) as (hi & Hhi).
    exists lo, hi. unfold fmin, fmax. split; [exact Hlo|]. split; [exact Hhi|].
    destruct (Hmin _ _ _ Hlo) as (Hlo_all & llo & xlo & Hllo & [= <-] & Hlo_eq).
    destruct (Hmax _ _ _ Hhi) as (Hhi_all & lhi & xhi & Hlhi & [= <-] & Hhi_eq).
    split; [|split; [by exists llo|by exists lhi]].
    intros li Hli.
    destruct (Hlo_all li Hli) as (x & [= <-] & Hx).
    destruct (Hhi_all li Hli) as (y & [= <-] & Hy). done.
  - intros first final Hfirst Hfinal.
    destruct (Hmin _ _ _ Hfirst) as (Hlo_all & llo & xlo & Hllo & Hxlo & Hlo_eq).
    destruct (Hmax _ _ _ Hfinal) as (Hhi_all & lhi & xhi & Hlhi & Hxhi & Hhi_eq).
    split; [|split].
    + intros li Hli.
      destruct (Hlo_all li Hli) as (x & Hx & Hxle).
      destruct (Hhi_all li Hli) as (y & Hy & Hyle).
      unfold lane_tmin in Hx. unfold lane_tmax in Hy.
      destruct (head (time_unix li)) as [t0|]; [|discriminate].
      destruct (last (time_unix li)) as [t1|]; [|discriminate].
      injection Hx as <-. injection Hy as <-. by exists t0, t1.
    + exists llo, xlo. split; [done|]. split; [|done].
      unfold lane_tmin in Hxlo.
      destruct (head (time_unix llo)); [|discriminate]. by injection Hxlo as <-.
    + exists lhi, xhi. split; [done|]. split; [|done].
      unfold lane_tmax in Hxhi.
      destruct (last (time_unix lhi)); [|discriminate]. by injection Hxhi as <-.
Qed.

Lemma observation_bounds_witness :
  exists lo hi,
    fmin demo_dynspec = Ok lo /\ fmax demo_dynspec = Ok hi
    /\ (lo <= _fmin demo_lane_B)%Q /\ (_fmax demo_lane_B <= hi)%Q.
Proof.
  destruct (proj1 (proj2 (observation_bounds demo_dynspec)))
    as (lo & hi & Hlo & Hhi & Hall & _).
  - vm_compute. discriminate.
  - exists lo, hi. split; [exact Hlo|]. split; [exact Hhi|].
    apply Hall. vm_compute. apply list_elem_of_further, list_elem_of_here.
Defined.

(** ** The constructor *)

(** The three assignments of [__init__] that can change the state. *)
Lemma Dynspec_init_run `{World} (l : lanefiles_arg) (self : Dynspec) :
  Dynspec_init l = Ok self ->
  exists self1 self2 first,
    lanefiles_setter l blank_dynspec = (self1, Ok ())
    /\ tmin self1 = Ok first
    /\ beam_setter 0 self1 = Ok self2
    /\ self = set__edge_channels_to_remove 0 self2.
Proof.
  unfold Dynspec_init. fold blank_dynspec.
  destruct (lanefiles_setter l blank_dynspec) as [self1 [[]|e]]; [|discriminate].
  cbn [mbind result_bind].
  destruct (tmin self1) as [first|] eqn:Hfirst; [|discriminate].
  cbn [mbind result_bind].
  destruct (tmax self1); [|discriminate]. cbn [mbind result_bind].
  destruct (fmin self1); [|discriminate]. cbn [mbind result_bind].
  destruct (fmax self1); [|discriminate]. cbn [mbind result_bind].
  destruct (beam_setter 0 self1) as [self2|] eqn:Hb; [|discriminate].
  cbn [mbind result_bind].
  intros Hedge. exists self1, self2, first.
  split; [done|]. split; [done|]. split; [done|].
  revert Hedge. unfold edge_channels_to_remove_setter.
  destruct (nchan self2) as [nch|]; [|discriminate]. cbn [mbind result_bind].
  change (0 * 2)%Z with 0%Z.
  destruct (0 >? nch)%Z; cbn; by intros [= <-].
Qed.

(** X16. What a constructed observation looks like. An empty list of files is
    refused with [ValueError]. When the constructor completes, one lane
    has been attached for each listed file and at least one is; the list
    of files is stored with absolute paths; the selected beam is held by
    some lane, and is beam 0 whenever beam 0 is available; no time or
    frequency range is set, no correction stage is switched on, and no
    edge channel is to be removed. *)
Theorem Dynspec_init_postconditions `{World} (l : lanefiles_arg) :
  (listed l = [] -> Dynspec_init l = Raise ValueError)
  /\ (forall self,
        Dynspec_init l = Ok self ->
        lanes self <> []
        /\ Forall2 (fun li path => _Lane (abspath path) = Ok li)
             (lanes self) (map abspath (listed l))
        /\ _lanefiles self = Some (map abspath (listed l))
        /\ (exists li, li ∈ lanes self /\ is_Some (beam_idx li !! _beam self))
        /\ (0%Z ∈ beams self -> _beam self = 0%Z)
        /\ _time_range self = None /\ _freq_range self = None
        /\ _dispersion_measure self = None
        /\ _rebin_dt self = None /\ _rebin_df self = None
        /\ _jump_correction self = false /\ _bp_correction self = "none"
        /\ _edge_channels_to_remove self = 0%Z /\ clean_rfi self = false).
Proof.
  split.
  - destruct l as [l|s]; [|discriminate]. cbn [listed]. by intros ->.
  - intros self Hinit.
    pose proof (Dynspec_init_inv _ _ Hinit) as (Hok & Hlanes).
    destruct (Dynspec_init_run _ _ Hinit) as (self1 & self2 & first & Hset & Hfirst & Hbeam & ->).
    destruct (beam_setter_inv _ _ _ Hbeam) as (Hself2 & Hin & Hreq & _).
    assert (Hset1 : self1 = set__lanefiles (map abspath (listed l))
                              (set_lanes (lanes self1) blank_dynspec)).
    { revert Hset. unfold lanefiles_setter. fold (listed l).
      destruct (lanefiles_loop (map abspath (listed l)) (lanes blank_dynspec))
        as [lanes' [[]|e]]; [|discriminate].
      by intros [= <-]. }
    assert (Hl2 : lanes self2 = lanes self1) by (by rewrite Hself2).
    assert (Hb2 : beams self2 = beams self1) by (by rewrite Hself2).
    cbn [lanes set__edge_channels_to_remove] in Hlanes |- *.
    split; [|split; [|split; [|split; [|split]]]].
    + rewrite Hl2. intros Hnil. unfold tmin in Hfirst. by rewrite Hnil in Hfirst.
    + rewrite Hlanes. by apply lanefiles_loop_ok.
    + cbn. rewrite Hself2. cbn. by rewrite Hset1.
    + change (exists li, li ∈ lanes self2 /\ is_Some (beam_idx li !! _beam self2)).
      apply beams_elem. by rewrite Hb2.
    + change (0%Z ∈ beams self2 -> _beam self2 = 0%Z). by rewrite Hb2.
    + cbn. rewrite Hself2. cbn. rewrite Hset1. cbn. done.
Qed.

Lemma Dynspec_init_postconditions_witness :
  @Dynspec_init demo_world (PyList []) = Raise ValueError
  /\ _lanefiles demo_dynspec
     = Some ["/data/OBS-A_0.spectra"; "/data/OBS-B_1.spectra"]
  /\ _beam demo_dynspec = 0%Z.
Proof.
  destruct (@Dynspec_init_postconditions demo_world (PyList [])) as [Hempty _].
  destruct (@Dynspec_init_postconditions demo_world demo_lanefiles) as [_ Hpost].
  destruct (Hpost demo_dynspec demo_dynspec_init)
    as (_ & _ & Hfiles & _ & Hbeam & _).
  split; [by apply Hempty|]. split; [exact Hfiles|].
  apply Hbeam. apply (bool_decide_unpack _). vm_compute. exact I.
Defined.

(** ** Assignments to lanefiles that fail *)

Lemma lanefiles_loop_failure `{World} (pre post : list string) (bad : string)
    (built : list Lane) (e : exn) :
  (forall p, abspath (abspath p) = abspath p) ->
  Forall2 (fun li p => _Lane p = Ok li) built pre ->
  _Lane bad = Raise e ->
  forall lanes0,
    lanefiles_loop (map abspath (pre ++ bad :: post)) lanes0
    = (lanes0 ++ built, Raise e).
Proof.
  intros Hidem Hpre Hbad.
  assert (Hstep : forall p, _Lane (abspath p) = _Lane p).
  { intros p. unfold _Lane. by rewrite Hidem. }
  assert (Hfs : forall p li, _Lane p = Ok li -> fs (abspath p) <> None).
  { intros p li. unfold _Lane. by destruct (fs (abspath p)). }
  induction Hpre as [|li p built pre Hli _ IH]; intros lanes0.
  - cbn [app map lanefiles_loop]. rewrite Hidem, Hstep, Hbad.
    rewrite app_nil_r. by destruct (fs (abspath bad)) eqn:Hf;
      [|revert Hbad; unfold _Lane; rewrite Hf; intros [= <-]].
  - cbn [app map lanefiles_loop]. rewrite Hidem, Hstep, Hli.
    destruct (fs (abspath p)) eqn:Hf; [|by apply Hfs in Hli].
    rewrite IH. by rewrite <- app_assoc.
Qed.

(** X17. A failing assignment to [lanefiles] leaves the object half updated.
    Paths being normalised by an idempotent [abspath], let the listed
    files before [bad] all load and [bad] fail with exception [e]: the
    assignment raises [e], the lanes of the files before [bad] have been
    attached all the same, the files after [bad] have not been looked at,
    and nothing else, the stored list of files included, has changed. *)
Theorem lanefiles_setter_failure `{World} (pre post : list string) (bad : string)
    (built : list Lane) (e : exn) (self : Dynspec) :
  (forall p, abspath (abspath p) = abspath p) ->
  Forall2 (fun li p => _Lane p = Ok li) built pre ->
  _Lane bad = Raise e ->
  lanefiles_setter (PyList (pre ++ bad :: post)) self
  = (set_lanes (lanes self ++ built) self, Raise e).
Proof.
  intros Hidem Hpre Hbad. unfold lanefiles_setter.
  by rewrite (lanefiles_loop_failure pre post bad built e Hidem Hpre Hbad).
Qed.

Lemma lanefiles_setter_failure_witness :
  (@lanefiles_setter demo_world
     (PyList ["/data/OBS-A_0.spectra"; "/data/OBS-C_3.spectra"; "/data/OBS-B_1.spectra"])
     demo_dynspec).2
  = Raise FileNotFoundError
  /\ _lanefiles
       (@lanefiles_setter demo_world
          (PyList ["/data/OBS-A_0.spectra"; "/data/OBS-C_3.spectra";
                   "/data/OBS-B_1.spectra"])
          demo_dynspec).1
     = Some ["/data/OBS-A_0.spectra"; "/data/OBS-B_1.spectra"].
Proof.
  pose proof (@lanefiles_setter_failure demo_world
                ["/data/OBS-A_0.spectra"] ["/data/OBS-B_1.spectra"]
                "/data/OBS-C_3.spectra" (take 1 (lanes demo_dynspec))
                FileNotFoundError demo_dynspec) as Hfail.
  cbn [app] in Hfail. rewrite Hfail.
  - split; reflexivity.
  - intros p. reflexivity.
  - vm_compute. constructor; [reflexivity|constructor].
  - reflexivity.
Defined.

(** * Further properties of the observation: what get returns *)

(** ** The pipeline in its default configuration *)

(** X18. With band-pass correction on 'none', no edge channel to remove, jump
    correction off, no dispersion measure and no rebinning, which is the
    state the constructor leaves, the correction stages of [get] hand the
    selection over untouched: samples, time axis and frequency axis are
    the selected ones, and none of the external kernels is consulted. *)
Theorem get_process_default `{World} (self : Dynspec) (stokes : string) (li : Lane)
    (sel : selection) :
  _bp_correction self = "none" ->
  _edge_channels_to_remove self = 0%Z ->
  _jump_correction self = false ->
  _dispersion_measure self = None ->
  _rebin_dt self = None ->
  _rebin_df self = None ->
  get_process self stokes li sel
  = Ok (MkSData (sel_data sel) (sel_times sel) (sel_freqs sel) stokes).
Proof.
  intros Hbp Hedge Hjump Hdm Hdt Hdf.
  unfold get_process, _bp_correct, _remove_edge_channels, _clean, _correct_jumps,
    _dedisperse, _rebin.
  rewrite Hbp, Hedge, Hjump, Hdm, Hdt, Hdf. reflexivity.
Qed.

Lemma get_process_default_witness :
  @get_process demo_world demo_dynspec "I" demo_lane_B
    (MkSelection 0 1 0 8 demo_spectrum (frequency_hz demo_lane_B)
       (take 1 (time_unix demo_lane_B)))
  = Ok (MkSData demo_spectrum (take 1 (time_unix demo_lane_B))
          (frequency_hz demo_lane_B) "I").
Proof.
  apply (@get_process_default demo_world demo_dynspec "I" demo_lane_B
           (MkSelection 0 1 0 8 demo_spectrum (frequency_hz demo_lane_B)
              (take 1 (time_unix demo_lane_B))));
    reflexivity.
Defined.

(** ** The time window of a selection *)






